(** * Serge: user, credential and chat records behind the HTTP API

    A shallow embedding of [serge/schema/user.py], [serge/crud.py] and
    [serge/database.py]: the pydantic view models, the ORM objects they are
    mapped to and from, a session over three tables, and the service
    functions that run against it. *)

From stdpp Require Import base list strings.

(** [uuid.UUID]: a 128-bit number. *)
Definition UUID := N.
Bind Scope N_scope with UUID.

(** ** Python values, as [BaseModel.dict()] produces them

    A dictionary keeps its keys in insertion order; [d[k] = v] replaces the
    value of a key that is present and appends the key otherwise. *)

#[local] Unset Elimination Schemes.
Inductive pyval :=
| VStr (s : string)
| VInt (z : Z)
| VBool (b : bool)
| VUuid (u : UUID)
| VList (l : list pyval)
| VDict (d : list (string * pyval)).
#[local] Set Elimination Schemes.

Definition pydict := list (string * pyval).

Fixpoint dict_get (k : string) (d : pydict) : option pyval :=
  match d with
  | [] => None
  | (k', v) :: d' => if decide (k = k') then Some v else dict_get k d'
  end.

Fixpoint dict_set (k : string) (v : pyval) (d : pydict) : pydict :=
  match d with
  | [] => [(k, v)]
  | (k', v') :: d' =>
      if decide (k = k') then (k, v) :: d' else (k', v') :: dict_set k v d'
  end.

(** ** Exceptions and results *)

Inductive exn :=
| AssertionError (msg : string)
| NoResultFound
| MultipleResultsFound
| ValidationError
| IntegrityError
| UnmappedInstanceError
| KeyError (k : string)
| TypeError
| AttributeError.

Inductive result (A : Type) :=
| Ok (a : A)
| Raise (e : exn).
Arguments Ok {A} a.
Arguments Raise {A} e.

Definition rbind {A B} (r : result A) (k : A → result B) : result B :=
  match r with
  | Ok a => k a
  | Raise e => Raise e
  end.

Fixpoint rmap {A B} (f : A → result B) (l : list A) : result (list B) :=
  match l with
  | [] => Ok []
  | x :: l' =>
      rbind (f x) (λ y, rbind (rmap f l') (λ ys, Ok (y :: ys)))
  end.

(** ** View models: [serge/schema/user.py] *)

Module user_schema.

Module UserAuth.
Record t := mk { username : string; secret : string; auth_type : Z }.

Definition dict (ua : t) : pydict :=
  [("username", VStr (username ua));
   ("secret", VStr (secret ua));
   ("auth_type", VInt (auth_type ua))].
End UserAuth.

Module Chat.
Record t := mk { chat_id : string; owner : string }.

Definition dict (c : t) : pydict :=
  [("chat_id", VStr (chat_id c)); ("owner", VStr (owner c))].

(** [Chat(chat_id=..., owner=...)] with an owner read off an ORM object:
    validation refuses [None] for a [str] field. *)
Definition validate (chat_id0 : string) (owner0 : option string) : result t :=
  match owner0 with
  | Some o => Ok (mk chat_id0 o)
  | None => Raise ValidationError
  end.
End Chat.

Module User.
Record t := mk {
  username : string;
  id : UUID;
  is_active : bool;
  email : string;
  full_name : string;
  theme_light : bool;
  default_prompt : string;
  auth : list UserAuth.t;
  chats : list Chat.t }.

Definition default_prompt_default : string :=
  "Below is an instruction that describes a task. Write a response that appropriately completes the request.".

(** [User(id=..., username=...)]: every other field takes its default. *)
Definition new (id0 : UUID) (username0 : string) : t :=
  mk username0 id0 true "" "" false default_prompt_default [] [].

Definition set_auth (l : list UserAuth.t) (u : t) : t :=
  mk (username u) (id u) (is_active u) (email u) (full_name u)
     (theme_light u) (default_prompt u) l (chats u).

Definition set_chats (l : list Chat.t) (u : t) : t :=
  mk (username u) (id u) (is_active u) (email u) (full_name u)
     (theme_light u) (default_prompt u) (auth u) l.

(** [self.dict()]: the fields in declaration order, the base class first;
    nested models become dictionaries. *)
Definition dict (u : t) : pydict :=
  [("username", VStr (username u));
   ("id", VUuid (id u));
   ("is_active", VBool (is_active u));
   ("email", VStr (email u));
   ("full_name", VStr (full_name u));
   ("theme_light", VBool (theme_light u));
   ("default_prompt", VStr (default_prompt u));
   ("auth", VList (map (λ a, VDict (UserAuth.dict a)) (auth u)));
   ("chats", VList (map (λ c, VDict (Chat.dict c)) (chats u)))].

Definition mask : string := "********".

(** The body of the loop [for auth in user_dict["auth"]: auth["secret"] = mask]. *)
Definition mask_secret (auth0 : pyval) : result pyval :=
  match auth0 with
  | VDict d => Ok (VDict (dict_set "secret" (VStr mask) d))
  | _ => Raise TypeError
  end.

Definition to_public_dict (self : t) : result pydict :=
  let user_dict := dict self in
  match dict_get "auth" user_dict with
  | Some (VList auths) =>
      rbind (rmap mask_secret auths)
            (λ auths', Ok (dict_set "auth" (VList auths') user_dict))
  | Some _ => Raise TypeError
  | None => Raise (KeyError "auth")
  end.
End User.

End user_schema.

(** ** ORM objects: [serge/models/user.py] *)

Module user_model.

(** What a relationship is handed when an object is constructed: an object
    of the mapped class, or some other Python value. *)
Inductive given (A : Type) :=
| Mapped (a : A)
| Unmapped (v : pyval).
Arguments Mapped {A} a.
Arguments Unmapped {A} v.

Definition mapped_all {A} (l : list (given A)) : result (list A) :=
  rmap (λ g, match g with
             | Mapped a => Ok a
             | Unmapped _ => Raise AttributeError
             end) l.

(** Modelled from the spec: the class [UserAuth] of [serge/models/user.py],
    which is not among the sources. "Attributes: secret (string), auth_type
    (integer discriminator), owning user id"; the owning id is unset until
    the object is given one or attached to a user. *)
Module UserAuth.
Record t := mk { secret : string; auth_type : Z; user_id : option UUID }.

Definition set_user_id (i : UUID) (a : t) : t :=
  mk (secret a) (auth_type a) (Some i).
End UserAuth.

(** Modelled from the spec: the class [Chat] of [serge/models/user.py].
    "chats(chat_id, owner, user_id FK)"; [Chat(chat_id=...)] leaves the
    owner unset. *)
Module Chat.
Record t := mk { chat_id : string; owner : option string; user_id : option UUID }.

Definition set_user_id (i : UUID) (c : t) : t :=
  mk (chat_id c) (owner c) (Some i).
End Chat.

(** Modelled from the spec: the class [User] of [serge/models/user.py].
    "users(id PK, username UNIQUE, email, full_name, theme_light,
    default_prompt, is_active)", with the two relationship collections
    "one User has zero-or-more UserAuth records, zero-or-more Chat
    records". *)
Module User.
Record t := mk {
  id : UUID;
  username : string;
  email : string;
  full_name : string;
  theme_light : bool;
  default_prompt : string;
  is_active : bool;
  auth : list UserAuth.t;
  chats : list Chat.t }.

(** Modelled from the spec: the constructor [User(...)] by keywords. The
    columns take the values given. A relationship takes a list of objects
    of its class, as in [seed_db]; handed anything else, such as the
    dictionaries [u.dict()] holds under ["auth"] and ["chats"], the ORM
    finds no instance state on the value and raises [AttributeError]. The
    keywords are set in the order given, [auth] before [chats]. *)
Definition init (id0 : UUID) (username0 email0 full_name0 : string)
    (theme_light0 : bool) (default_prompt0 : string) (is_active0 : bool)
    (auth0 : list (given UserAuth.t)) (chats0 : list (given Chat.t)) : result t :=
  rbind (mapped_all auth0) (λ auth1,
    rbind (mapped_all chats0) (λ chats1,
      Ok (mk id0 username0 email0 full_name0 theme_light0 default_prompt0
            is_active0 auth1 chats1))).

Definition set_auth (l : list UserAuth.t) (u : t) : t :=
  mk (id u) (username u) (email u) (full_name u) (theme_light u)
     (default_prompt u) (is_active u) l (chats u).

Definition set_chats (l : list Chat.t) (u : t) : t :=
  mk (id u) (username u) (email u) (full_name u) (theme_light u)
     (default_prompt u) (is_active u) (auth u) l.

(** [setattr(user, k, v)] for a column [k]; a value of another type than
    the column's, or a name that is no column, leaves the columns as they
    are. *)
Definition setattr (u : t) (k : string) (v : pyval) : t :=
  match v with
  | VUuid x =>
      if decide (k = "id")
      then mk x (username u) (email u) (full_name u) (theme_light u)
              (default_prompt u) (is_active u) (auth u) (chats u)
      else u
  | VStr x =>
      if decide (k = "username")
      then mk (id u) x (email u) (full_name u) (theme_light u)
              (default_prompt u) (is_active u) (auth u) (chats u)
      else if decide (k = "email")
      then mk (id u) (username u) x (full_name u) (theme_light u)
              (default_prompt u) (is_active u) (auth u) (chats u)
      else if decide (k = "full_name")
      then mk (id u) (username u) (email u) x (theme_light u)
              (default_prompt u) (is_active u) (auth u) (chats u)
      else if decide (k = "default_prompt")
      then mk (id u) (username u) (email u) (full_name u) (theme_light u)
              x (is_active u) (auth u) (chats u)
      else u
  | VBool x =>
      if decide (k = "theme_light")
      then mk (id u) (username u) (email u) (full_name u) x
              (default_prompt u) (is_active u) (auth u) (chats u)
      else if decide (k = "is_active")
      then mk (id u) (username u) (email u) (full_name u) (theme_light u)
              (default_prompt u) x (auth u) (chats u)
      else u
  | _ => u
  end.
End User.

End user_model.

(** ** Storage *)

(** Modelled from the spec: the users table of [serge/models/user.py],
    "users(id PK, username UNIQUE, email, full_name, theme_light,
    default_prompt, is_active)". Every column holds a value of its type.
    The table keeps insertion order and enforces no constraint of its own;
    uniqueness of the username is "enforced by a pre-check before insert". *)
Module users.
Record row := mk {
  id : UUID;
  username : string;
  email : string;
  full_name : string;
  theme_light : bool;
  default_prompt : string;
  is_active : bool }.
End users.

(** Modelled from the spec: the chats table, "chats(chat_id, owner, user_id
    FK)" with "chat_id (string, externally generated), owner (string,
    username)"; the owning user id may be absent. *)
Module chats.
Record row := mk { chat_id : string; owner : string; user_id : option UUID }.
End chats.

(** Modelled from the spec: "three related tables". A stored credential,
    "user_auth(id, user_id FK, secret, auth_type)", has the shape of the ORM
    object. *)
Record Database := mkDatabase {
  users_table : list users.row;
  user_auth_table : list user_model.UserAuth.t;
  chats_table : list chats.row }.

(** What the session is asked to write, in the order it was asked. A
    loaded object is known by the position of its row. *)
Inductive entity :=
| EUser (u : user_model.User.t)
| EUserAuth (a : user_model.UserAuth.t)
| EChat (c : user_model.Chat.t).

Inductive change :=
| Insert (e : entity)
| Update (rowid : nat) (u : user_model.User.t)
| Delete (rowid : nat).

(** [Session]: the database it is bound to and its unit of work. Queries
    read the database only ([autoflush=False]); [commit] writes the unit of
    work out. *)
Record Session := mkSession { engine : Database; pending : list change }.

(** [SessionLocal()]: a new session on the engine, nothing pending. *)
Definition SessionLocal (d : Database) : Session := mkSession d [].

#[global] Instance UserAuth_eq_dec : EqDecision user_model.UserAuth.t.
Proof. solve_decision. Defined.
#[global] Instance Chat_eq_dec : EqDecision user_model.Chat.t.
Proof. solve_decision. Defined.
#[global] Instance User_eq_dec : EqDecision user_model.User.t.
Proof. solve_decision. Defined.
#[global] Instance entity_eq_dec : EqDecision entity.
Proof. solve_decision. Defined.
#[global] Instance change_eq_dec : EqDecision change.
Proof. solve_decision. Defined.

(** *** Loading *)

Definition row_of_User (u : user_model.User.t) : users.row :=
  users.mk (user_model.User.id u) (user_model.User.username u)
           (user_model.User.email u) (user_model.User.full_name u)
           (user_model.User.theme_light u) (user_model.User.default_prompt u)
           (user_model.User.is_active u).

Definition load_Chat (c : chats.row) : user_model.Chat.t :=
  user_model.Chat.mk (chats.chat_id c) (Some (chats.owner c)) (chats.user_id c).

(** The relationship [User.auth]: the credentials owned by the user's id. *)
Definition auth_of (d : Database) (i : UUID) : list user_model.UserAuth.t :=
  filter (λ a, user_model.UserAuth.user_id a = Some i) (user_auth_table d).

(** The relationship [User.chats]. *)
Definition chats_of (d : Database) (i : UUID) : list user_model.Chat.t :=
  load_Chat <$> filter (λ c, chats.user_id c = Some i) (chats_table d).

Definition load_User (d : Database) (r : users.row) : user_model.User.t :=
  user_model.User.mk (users.id r) (users.username r) (users.email r)
    (users.full_name r) (users.theme_light r) (users.default_prompt r)
    (users.is_active r) (auth_of d (users.id r)) (chats_of d (users.id r)).

(** *** The state and exception monad of the service functions *)

Definition M (A : Type) : Type := Session → result A * Session.

Definition ret {A} (a : A) : M A := λ s, (Ok a, s).

Definition raise {A} (e : exn) : M A := λ s, (Raise e, s).

Definition lift {A} (r : result A) : M A := λ s, (r, s).

Definition bind {A B} (m : M A) (k : A → M B) : M B :=
  λ s, match m s with
       | (Ok a, s') => k a s'
       | (Raise e, s') => (Raise e, s')
       end.

Notation "x <~ m ;; k" := (bind m (λ x, k))
  (at level 100, m at next level, right associativity, only parsing).
Notation "m ;;; k" := (bind m (λ _, k))
  (at level 100, right associativity, only parsing).

(** *** Queries *)

Definition indexed {A} (l : list A) : list (nat * A) := imap (λ i x, (i, x)) l.

(** [db.query(user_model.User)] and [db.query(user_model.Chat)]: every row,
    loaded, with its position. *)
Definition query_User (s : Session) : list (nat * user_model.User.t) :=
  prod_map id (load_User (engine s)) <$> indexed (users_table (engine s)).

Definition query_Chat (s : Session) : list (nat * user_model.Chat.t) :=
  prod_map id load_Chat <$> indexed (chats_table (engine s)).

(** [.filter(P)] *)
Definition filter_by {A} (P : A → Prop) `{∀ x, Decision (P x)}
    (q : list (nat * A)) : list (nat * A) :=
  filter (λ p, P p.2) q.

(** [.first()] *)
Definition first {A} (q : list (nat * A)) : option (nat * A) := head q.

(** [.one()] *)
Definition one {A} (q : list (nat * A)) : result (nat * A) :=
  match q with
  | [] => Raise NoResultFound
  | [x] => Ok x
  | _ :: _ :: _ => Raise MultipleResultsFound
  end.

(** [.offset(skip)] and [.limit(limit)], as SQLite reads them: a negative
    offset is zero and a negative limit is no limit. This is what the
    query returns for numbers a 64-bit integer holds; the driver refuses
    larger ones, which the properties on pages rule out. *)
Definition offset {A} (skip : Z) (q : list A) : list A := drop (Z.to_nat skip) q.

Definition limit {A} (n : Z) (q : list A) : list A :=
  if bool_decide (n < 0)%Z then q else take (Z.to_nat n) q.

(** *** The unit of work *)

Definition add_once (c : change) (s : Session) : Session :=
  if decide (c ∈ pending s) then s else mkSession (engine s) (pending s ++ [c]).

(** The objects an added object brings along: a user's credentials and
    chats, each bound to the user's id. *)
Definition cascade (e : entity) : list change :=
  match e with
  | EUser u =>
      ((λ a, Insert (EUserAuth (user_model.UserAuth.set_user_id (user_model.User.id u) a)))
         <$> user_model.User.auth u)
      ++ ((λ c, Insert (EChat (user_model.Chat.set_user_id (user_model.User.id u) c)))
            <$> user_model.User.chats u)
  | _ => []
  end.

(** [db.add(obj)]: an object the session already holds is not added a
    second time. Objects carry no identity here, so the one appended to
    [user.auth] and then added by itself is recognised by its equal
    attributes. *)
Definition db_add (e : entity) : M unit :=
  λ s, (Ok (), foldl (λ s c, add_once c s) s (Insert e :: cascade e)).

(** A write to an attribute of a loaded object marks the object dirty. *)
Definition db_dirty (rowid : nat) (u : user_model.User.t) : M unit :=
  λ s, (Ok (), mkSession (engine s) (pending s ++ [Update rowid u])).

(** [db.delete(c)] for a loaded chat. *)
Definition db_delete (rowid : nat) : M unit :=
  λ s, (Ok (), mkSession (engine s) (pending s ++ [Delete rowid])).

(** One write. A chat without an owner has no row to go to: the owner
    column is a string. The id of a user is the primary key of its table:
    a row cannot be given the id another row has. An inserted user has the
    id [uuid.uuid4()] drew for it, taken to be the id of no row: an insert
    is not checked against the key. *)
Definition apply_change (d : Database) (c : change) : result Database :=
  match c with
  | Insert (EUser u) =>
      Ok (mkDatabase (users_table d ++ [row_of_User u]) (user_auth_table d) (chats_table d))
  | Insert (EUserAuth a) =>
      Ok (mkDatabase (users_table d) (user_auth_table d ++ [a]) (chats_table d))
  | Insert (EChat c) =>
      match user_model.Chat.owner c with
      | Some o =>
          Ok (mkDatabase (users_table d) (user_auth_table d)
                (chats_table d ++
                   [chats.mk (user_model.Chat.chat_id c) o (user_model.Chat.user_id c)]))
      | None => Raise IntegrityError
      end
  | Update i u =>
      if decide (user_model.User.id u ∈ users.id <$> delete i (users_table d))
      then Raise IntegrityError
      else Ok (mkDatabase (<[i := row_of_User u]> (users_table d))
                 (user_auth_table d) (chats_table d))
  | Delete i =>
      Ok (mkDatabase (users_table d) (user_auth_table d) (delete i (chats_table d)))
  end.

Fixpoint flush (cs : list change) (d : Database) : result Database :=
  match cs with
  | [] => Ok d
  | c :: cs' => rbind (apply_change d c) (flush cs')
  end.

(** [db.commit()]: all of the unit of work or, when a write is refused,
    none of it. *)
Definition db_commit : M unit :=
  λ s, match flush (pending s) (engine s) with
       | Ok d => (Ok (), mkSession d [])
       | Raise e => (Raise e, s)
       end.

Definition query {A} (q : Session → A) : M A := λ s, (Ok (q s), s).

(** ** [serge/crud.py] *)

Module Mappers.

Definition user_auth_view_to_db (ua : option user_schema.UserAuth.t) (user_id : UUID)
    : option user_model.UserAuth.t :=
  match ua with
  | None => None
  | Some ua =>
      Some (user_model.UserAuth.mk (user_schema.UserAuth.secret ua)
              (user_schema.UserAuth.auth_type ua) (Some user_id))
  end.

Definition user_db_to_view (u : option user_model.User.t) (include_auth : bool)
    : result (option user_schema.User.t) :=
  match u with
  | None => Ok None
  | Some u =>
      let auths := if include_auth then user_model.User.auth u else [] in
      let chats := user_model.User.chats u in
      let app_user :=
        user_schema.User.mk (user_model.User.username u) (user_model.User.id u)
          (user_model.User.is_active u) (user_model.User.email u)
          (user_model.User.full_name u) (user_model.User.theme_light u)
          (user_model.User.default_prompt u) [] [] in
      let app_user :=
        user_schema.User.set_auth
          ((λ x, user_schema.UserAuth.mk (user_model.User.username u)
                   (user_model.UserAuth.secret x) (user_model.UserAuth.auth_type x))
             <$> auths) app_user in
      rbind (rmap (λ x, user_schema.Chat.validate (user_model.Chat.chat_id x)
                          (user_model.Chat.owner x)) chats)
            (λ chats', Ok (Some (user_schema.User.set_chats chats' app_user)))
  end.

(** [assert u or ua], then [if not u: u = User(id=uuid.uuid4(), ...)];
    [uuid4] is the identifier [uuid.uuid4()] draws when it is called. *)
Definition resolve_user (uuid4 : UUID) (u : option user_schema.User.t)
    (ua : option user_schema.UserAuth.t) : result user_schema.User.t :=
  match u, ua with
  | Some u, _ => Ok u
  | None, Some ua => Ok (user_schema.User.new uuid4 (user_schema.UserAuth.username ua))
  | None, None => Raise (AssertionError "One of User or UserAuth must be passed")
  end.

(** The second component is [None] where the source returns the falsy
    empty list it initialised [auth] with. The constructor of
    [user_model.User] is called on every entry of [u.dict()]: the seven
    scalar fields, and under ["auth"] and ["chats"] the dictionaries of
    the view's records, which it refuses; the appends below are reached
    when both lists are empty. *)
Definition user_view_to_db (uuid4 : UUID) (u : option user_schema.User.t)
    (ua : option user_schema.UserAuth.t)
    : result (user_model.User.t * option user_model.UserAuth.t) :=
  rbind (resolve_user uuid4 u ua) (λ u,
    let auth :=
      match ua with
      | Some _ => user_auth_view_to_db ua (user_schema.User.id u)
      | None => None
      end in
    rbind
      (user_model.User.init (user_schema.User.id u) (user_schema.User.username u)
         (user_schema.User.email u) (user_schema.User.full_name u)
         (user_schema.User.theme_light u) (user_schema.User.default_prompt u)
         (user_schema.User.is_active u)
         ((λ a, user_model.Unmapped (VDict (user_schema.UserAuth.dict a)))
            <$> user_schema.User.auth u)
         ((λ c, user_model.Unmapped (VDict (user_schema.Chat.dict c)))
            <$> user_schema.User.chats u))
      (λ user,
    let user :=
      match auth with
      | Some a => user_model.User.set_auth (user_model.User.auth user ++ [a]) user
      | None => user
      end in
    let user :=
      foldl (λ user chat,
               user_model.User.set_chats
                 (user_model.User.chats user
                    ++ [user_model.Chat.mk (user_schema.Chat.chat_id chat) None None])
                 user)
            user (user_schema.User.chats u) in
    Ok (user, auth))).

End Mappers.

Definition get_user (username : string) : M (option user_schema.User.t) :=
  u <~ query (λ s, first (filter_by (λ u, user_model.User.username u = username)
                            (query_User s))) ;;
  lift (Mappers.user_db_to_view (snd <$> u) true).

Definition get_user_by_email (email : string) : M (option user_schema.User.t) :=
  u <~ query (λ s, first (filter_by (λ u, user_model.User.email u = email)
                            (query_User s))) ;;
  lift (Mappers.user_db_to_view (snd <$> u) false).

Definition get_users (skip lim : Z) : M (list (option user_schema.User.t)) :=
  rows <~ query (λ s, limit lim (offset skip (query_User s))) ;;
  lift (rmap (λ u, Mappers.user_db_to_view (Some u.2) false) rows).

Section create.

(** [serge.utils.security.get_password_hash], the one-way hash the service
    is handed. *)
Variable get_password_hash : string → string.

(** A view is truthy, so [if get_user(db, ua.username)] asks whether a view
    came back; [uuid4] is what [uuid.uuid4()] draws in [user_view_to_db].
    The assignment to [ua.secret] is the rebinding of [ua] below. *)
Definition create_user (uuid4 : UUID) (ua : user_schema.UserAuth.t)
    : M (option user_schema.User.t) :=
  existing <~ get_user (user_schema.UserAuth.username ua) ;;
  match existing with
  | Some _ => ret None
  | None =>
      if decide (user_schema.UserAuth.auth_type ua = 1%Z) then
        let ua :=
          user_schema.UserAuth.mk (user_schema.UserAuth.username ua)
            (get_password_hash (user_schema.UserAuth.secret ua))
            (user_schema.UserAuth.auth_type ua) in
        r <~ lift (Mappers.user_view_to_db uuid4 None (Some ua)) ;;
        let db_user := r.1 in
        let db_user_auth := r.2 in
        (match db_user_auth with
         | Some a => db_add (EUserAuth a)
         | None => raise UnmappedInstanceError
         end) ;;;
        db_add (EUser db_user) ;;;
        db_commit ;;;
        lift (Mappers.user_db_to_view (Some db_user) false)
      else ret None
  end.

End create.

(** The loop writes the attributes of the loaded object; the session
    writes them to its row at [commit]. [commit] expires the object
    ([expire_on_commit] is left at its default), so what the caller reads
    off the returned object is read from the database again: the row, and
    the collections that go with the id now in it. *)
Definition update_user (u : user_schema.User.t) : M (option user_model.User.t) :=
  found <~ query (λ s, first (filter_by
                    (λ x, user_model.User.username x = user_schema.User.username u)
                    (query_User s))) ;;
  match found with
  | None => ret None
  | Some (rowid, user) =>
      let user :=
        foldl (λ user kv,
                 if bool_decide (kv.1 ∈ ["auth"; "chats"]) then user
                 else user_model.User.setattr user kv.1 kv.2)
              user (user_schema.User.dict u) in
      db_dirty rowid user ;;;
      db_commit ;;;
      user <~ query (λ s, load_User (engine s) (row_of_User user)) ;;
      ret (Some user)
  end.

Definition create_chat (chat : user_schema.Chat.t) : M unit :=
  let c :=
    user_model.Chat.mk (user_schema.Chat.chat_id chat)
      (Some (user_schema.Chat.owner chat)) None in
  db_add (EChat c) ;;;
  db_commit.

Definition remove_chat (chat : user_schema.Chat.t) : M unit :=
  c <~ (λ s, (one (filter_by
                (λ c, user_model.Chat.chat_id c = user_schema.Chat.chat_id chat)
                (query_Chat s)), s)) ;;
  db_delete c.1 ;;;
  db_commit.

(** ** [serge/database.py] *)

Definition seed_db (uuid4 : UUID) : M unit :=
  sys_u <~ query (λ s, first (filter_by (λ u, user_model.User.username u = "system")
                                (query_User s))) ;;
  match sys_u with
  | Some _ => ret ()
  | None =>
      system_user <~ lift
        (user_model.User.init uuid4 "system" "" "Default User" false
           "Below is an instruction that describes a task. Write a response that appropriately completes the request."
           true [user_model.Mapped (user_model.UserAuth.mk "" 0 None)] []) ;;
      db_add (EUser system_user) ;;;
      db_commit
  end.

(** ** One request after another

    Every request runs a service function in a session of its own; what it
    leaves behind is the database of that session. *)

Definition exec {A} (m : M A) (d : Database) : Database :=
  engine (m (SessionLocal d)).2.

Inductive op :=
| Get_user (username : string)
| Get_user_by_email (email : string)
| Get_users (skip lim : Z)
| Create_user (uuid4 : UUID) (ua : user_schema.UserAuth.t)
| Update_user (u : user_schema.User.t)
| Create_chat (chat : user_schema.Chat.t)
| Remove_chat (chat : user_schema.Chat.t)
| Seed_db (uuid4 : UUID).

Definition run_op (get_password_hash : string → string) (o : op) (d : Database)
    : Database :=
  match o with
  | Get_user username => exec (get_user username) d
  | Get_user_by_email email => exec (get_user_by_email email) d
  | Get_users skip lim => exec (get_users skip lim) d
  | Create_user uuid4 ua => exec (create_user get_password_hash uuid4 ua) d
  | Update_user u => exec (update_user u) d
  | Create_chat chat => exec (create_chat chat) d
  | Remove_chat chat => exec (remove_chat chat) d
  | Seed_db uuid4 => exec (seed_db uuid4) d
  end.

Definition run (get_password_hash : string → string) (ops : list op) (d : Database)
    : Database :=
  foldl (λ d o, run_op get_password_hash o d) d ops.

Definition usernames_unique (d : Database) : Prop :=
  NoDup (users.username <$> users_table d).

(** ** What a stored user looks like as a view *)

Definition view_auth (username : string) (a : user_model.UserAuth.t)
    : user_schema.UserAuth.t :=
  user_schema.UserAuth.mk username (user_model.UserAuth.secret a)
    (user_model.UserAuth.auth_type a).

Definition view_chat (c : chats.row) : user_schema.Chat.t :=
  user_schema.Chat.mk (chats.chat_id c) (chats.owner c).

Definition view_of_row (d : Database) (r : users.row) (include_auth : bool)
    : user_schema.User.t :=
  user_schema.User.mk (users.username r) (users.id r) (users.is_active r)
    (users.email r) (users.full_name r) (users.theme_light r)
    (users.default_prompt r)
    (if include_auth
     then view_auth (users.username r) <$> auth_of d (users.id r)
     else [])
    (view_chat <$> filter (λ c, chats.user_id c = Some (users.id r)) (chats_table d)).

(** The first row of a table that satisfies [P], with its position. *)
Definition first_row {A} (P : A → Prop) `{∀ x, Decision (P x)} (l : list A)
    : option (nat * A) :=
  list_find P l.

(** The database after a sign-up went through: one user row with the
    defaults of the view, one credential with the hashed secret. *)
Definition signed_up (get_password_hash : string → string) (uuid4 : UUID)
    (ua : user_schema.UserAuth.t) (d : Database) : Database :=
  mkDatabase
    (users_table d
       ++ [users.mk uuid4 (user_schema.UserAuth.username ua) "" "" false
             user_schema.User.default_prompt_default true])
    (user_auth_table d
       ++ [user_model.UserAuth.mk
             (get_password_hash (user_schema.UserAuth.secret ua)) 1 (Some uuid4)])
    (chats_table d).

(** The columns a view carries. *)
Definition columns_of_view (u : user_schema.User.t) : users.row :=
  users.mk (user_schema.User.id u) (user_schema.User.username u)
    (user_schema.User.email u) (user_schema.User.full_name u)
    (user_schema.User.theme_light u) (user_schema.User.default_prompt u)
    (user_schema.User.is_active u).

(** ** Sample data *)

Module sample.

Definition hash (secret : string) : string := "$2b$" +:+ secret.

Definition alice : user_schema.UserAuth.t := user_schema.UserAuth.mk "alice" "hunter2" 1.

Definition bob_token : user_schema.UserAuth.t := user_schema.UserAuth.mk "bob" "" 2.

Definition empty : Database := mkDatabase [] [] [].

Definition alice_row : users.row :=
  users.mk 7 "alice" "" "" false user_schema.User.default_prompt_default true.

Definition alice_auth : user_model.UserAuth.t :=
  user_model.UserAuth.mk "$2b$hunter2" 1 (Some 7%N).

Definition with_alice : Database := mkDatabase [alice_row] [alice_auth] [].

Definition chat1 : user_schema.Chat.t := user_schema.Chat.mk "c1" "alice".

Definition with_chat : Database :=
  mkDatabase [alice_row] [alice_auth] [chats.mk "c1" "alice" None].

Definition with_twin_chats : Database :=
  mkDatabase [alice_row] [alice_auth]
    [chats.mk "c1" "alice" None; chats.mk "c1" "bob" None].

Definition alice_edited : user_schema.User.t :=
  user_schema.User.mk "alice" 7 true "alice@example.org" "Alice" true "Answer briefly."
    [] [].

Definition requests : list op :=
  [Seed_db 1; Create_user 8 alice; Create_user 9 bob_token;
   Create_user 10 (user_schema.UserAuth.mk "carol" "pw" 1);
   Update_user alice_edited; Create_chat chat1; Remove_chat chat1; Seed_db 11].

End sample.

(** ** [test/healthcheck_models.py] *)

(** What [json.load] returns. A number is kept as its literal: the code
    only ever subscripts or iterates a value. *)
#[local] Unset Elimination Schemes.
Inductive json :=
| JNull
| JBool (b : bool)
| JNum (literal : string)
| JStr (s : string)
| JList (l : list json)
| JDict (d : list (string * json)).
#[local] Set Elimination Schemes.

Fixpoint json_get (k : string) (d : list (string * json)) : option json :=
  match d with
  | [] => None
  | (k', v) :: d' => if decide (k = k') then Some v else json_get k d'
  end.

(** [v[k]] for a string [k]: only a dictionary can be subscripted by a
    string, and the key has to be there. *)
Definition getitem (v : json) (k : string) : result json :=
  match v with
  | JDict d =>
      match json_get k d with
      | Some x => Ok x
      | None => Raise (KeyError k)
      end
  | _ => Raise TypeError
  end.

Fixpoint characters (s : string) : list json :=
  match s with
  | EmptyString => []
  | String c s' => JStr (String c EmptyString) :: characters s'
  end.

(** [for x in v]: a list gives its items, a dictionary its keys, a string
    its characters; nothing else can be iterated. *)
Definition iterate (v : json) : result (list json) :=
  match v with
  | JList l => Ok l
  | JDict d => Ok ((λ kv, JStr kv.1) <$> d)
  | JStr s => Ok (characters s)
  | _ => Raise TypeError
  end.

(** A generator, run to its end: what it yielded, and the exception that
    ended it if one did. *)
Definition generated (A : Type) : Type := list A * option exn.

Fixpoint for_in {A B} (l : list A) (body : A → generated B) : generated B :=
  match l with
  | [] => ([], None)
  | x :: l' =>
      match body x with
      | (ys, Some e) => (ys, Some e)
      | (ys, None) => let r := for_in l' body in (ys ++ r.1, r.2)
      end
  end.

Definition for_each {B} (items : result (list json)) (body : json → generated B)
    : generated B :=
  match items with
  | Ok l => for_in l body
  | Raise e => ([], Some e)
  end.

(** [yield model["repo"], file["filename"]]: the tuple is built left to
    right. *)
Definition yield_repo_filename (model file : json) : generated (json * json) :=
  match getitem model "repo" with
  | Raise e => ([], Some e)
  | Ok repo =>
      match getitem file "filename" with
      | Raise e => ([], Some e)
      | Ok filename => ([(repo, filename)], None)
      end
  end.

Definition flatten_model_data (families : json) : generated (json * json) :=
  for_each (iterate families) (λ family,
    for_each (rbind (getitem family "models") iterate) (λ model,
      for_each (rbind (getitem model "files") iterate) (λ file,
        yield_repo_filename model file))).

(** [list(flatten_model_data(model_data))] *)
Definition checks (model_data : json) : result (list (json * json)) :=
  match flatten_model_data model_data with
  | (l, None) => Ok l
  | (_, Some e) => Raise e
  end.

(** The shape of [serge/data/models.json]: families of models, a model
    with its repository and its files, a file with its filename; [more]
    stands for the other keys of each dictionary. *)
Module models_json.
Record file := mkFile { filename : string; file_more : list (string * json) }.
Record model := mkModel {
  repo : string;
  files : list file;
  model_more : list (string * json) }.
Record family := mkFamily { models : list model; family_more : list (string * json) }.

Definition file_json (f : file) : json :=
  JDict (("filename", JStr (filename f)) :: file_more f).

Definition model_json (m : model) : json :=
  JDict (("repo", JStr (repo m)) :: ("files", JList (file_json <$> files m))
           :: model_more m).

Definition family_json (f : family) : json :=
  JDict (("models", JList (model_json <$> models f)) :: family_more f).

Definition to_json (fs : list family) : json := JList (family_json <$> fs).

(** Every file of every model of every family, with its model's
    repository. *)
Definition pairs (fs : list family) : list (json * json) :=
  f ← fs; m ← models f; file ← files m; [(JStr (repo m), JStr (filename file))].
End models_json.

(** ** More sample data *)

Module more.

Definition carol : user_schema.UserAuth.t := user_schema.UserAuth.mk "carol" "s3cret" 1.

Definition alice_again : user_schema.UserAuth.t :=
  user_schema.UserAuth.mk "alice" "another" 1.

Definition system_grab : user_schema.UserAuth.t :=
  user_schema.UserAuth.mk "system" "letmein" 1.

Definition plain_view : user_schema.User.t :=
  user_schema.User.mk "dave" 4 true "dave@example.org" "Dave" false "Be kind." [] [].

Definition families : list models_json.family :=
  [models_json.mkFamily
     [models_json.mkModel "org/llama"
        [models_json.mkFile "llama.q4.gguf" [("name", JStr "q4")];
         models_json.mkFile "llama.q8.gguf" []]
        [("name", JStr "Llama")];
      models_json.mkModel "org/empty" [] []]
     [("name", JStr "Llama family")];
   models_json.mkFamily [models_json.mkModel "org/phi" [models_json.mkFile "phi.gguf" []] []]
     []].





Definition with_owned_chat : Database :=
  mkDatabase [sample.alice_row] [sample.alice_auth] [chats.mk "c1" "alice" (Some 7%N)].

Definition view_with_chat : user_schema.User.t :=
  user_schema.User.mk "alice" 7 true "" "" false user_schema.User.default_prompt_default
    [] [user_schema.Chat.mk "c1" "alice"].

Definition family_without_models : list (string * json) := [("name", JStr "Broken")].

Definition model_without_repo : json :=
  JDict [("files", JList [JDict [("filename", JStr "orphan.gguf")]])].

Definition model_without_files_or_repo : json := JDict [("files", JList [])].

End more.

(** * Properties *)

(** ** Queries against the tables *)

Section query_lemmas.
Context {A B : Type} (f : A → B) (P : B → Prop) `{∀ y, Decision (P y)}.

Lemma imap_shift (l : list A) (k : nat) :
  imap ((λ i x, (k + i, x)) ∘ S) l = imap (λ i x, (S k + i, x)) l.
Proof. apply imap_ext. intros i y _. cbn. f_equal. lia. Qed.

Lemma filter_by_imap (l : list A) (k : nat) :
  filter_by P (prod_map id f <$> imap (λ i x, (k + i, x)) l)
  = prod_map id f <$> filter (λ p, P (f p.2)) (imap (λ i x, (k + i, x)) l).
Proof.
  unfold filter_by. induction l as [|x l IH] in k |- *; [done|].
  cbn [imap]. rewrite imap_shift, fmap_cons, !filter_cons. cbn [prod_map snd].
  destruct (decide (P (f x))); [rewrite fmap_cons|]; rewrite IH; done.
Qed.

Lemma first_filter_imap (l : list A) (k : nat) :
  head (filter (λ p, P (f p.2)) (imap (λ i x, (k + i, x)) l))
  = prod_map (λ i, k + i) id <$> list_find (λ x, P (f x)) l.
Proof.
  induction l as [|x l IH] in k |- *; [done|].
  cbn [imap list_find]. rewrite imap_shift, filter_cons. cbn [snd].
  destruct (decide (P (f x))).
  - done.
  - rewrite IH. destruct (list_find _ l) as [[i y]|]; cbn; [|done].
    do 2 f_equal. lia.
Qed.

Lemma first_query (l : list A) :
  first (filter_by P (prod_map id f <$> indexed l))
  = prod_map id f <$> first_row (λ x, P (f x)) l.
Proof.
  unfold first, indexed, first_row.
  change (imap (λ i x, (i, x)) l) with (imap (λ i x, (0 + i, x)) l).
  rewrite (filter_by_imap l 0).
  pose proof (first_filter_imap l 0) as E.
  destruct (filter _ _) as [|[i x] q]; cbn in *;
    destruct (list_find _ l) as [[j y]|]; cbn in *; congruence.
Qed.
End query_lemmas.

Section indexed_filter.
Context {A : Type} (Q : A → Prop) `{∀ x, Decision (Q x)}.

Lemma filter_imap_nil (l : list A) (k : nat) :
  filter Q l = [] → filter (λ p, Q p.2) (imap (λ i x, (k + i, x)) l) = [].
Proof.
  induction l as [|x l IH] in k |- *; [done|].
  cbn [imap]. rewrite imap_shift, !filter_cons. cbn [snd].
  destruct (decide (Q x)); [done|]. apply IH.
Qed.

Lemma filter_imap_length (l : list A) (k : nat) :
  length (filter (λ p, Q p.2) (imap (λ i x, (k + i, x)) l)) = length (filter Q l).
Proof.
  induction l as [|x l IH] in k |- *; [done|].
  cbn [imap]. rewrite imap_shift, !filter_cons. cbn [snd].
  destruct (decide (Q x)); cbn [length]; by rewrite IH.
Qed.

Lemma filter_not_all (l : list A) :
  filter Q l = [] → filter (λ x, ¬ Q x) l = l.
Proof.
  induction l as [|x l IH]; [done|]. rewrite !filter_cons.
  destruct (decide (Q x)) as [Hx|Hx]; [done|]. intros E.
  rewrite decide_True by done. by rewrite IH.
Qed.

Lemma filter_imap_one (l : list A) (k : nat) (c : A) :
  filter Q l = [c] →
  ∃ i, filter (λ p, Q p.2) (imap (λ i x, (k + i, x)) l) = [(k + i, c)]
       ∧ l !! i = Some c
       ∧ delete i l = filter (λ x, ¬ Q x) l.
Proof.
  induction l as [|x l IH] in k |- *; [done|].
  cbn [imap]. rewrite imap_shift, !filter_cons. cbn [snd].
  destruct (decide (Q x)) as [Hx|Hx]; intros E.
  - injection E as -> E. exists 0. rewrite (filter_imap_nil _ _ E).
    split; [done|]. split; [done|]. cbn [delete list_delete].
    rewrite decide_False by tauto.
    by rewrite filter_not_all.
  - destruct (IH (S k) E) as (i & Hf & Hi & Hd). exists (S i).
    rewrite Hf. split; [do 2 f_equal; lia|]. split; [done|].
    cbn [delete list_delete]. rewrite decide_True by done. by rewrite <- Hd.
Qed.
End indexed_filter.

Lemma snd_indexed {A} (l : list A) : snd <$> indexed l = l.
Proof.
  unfold indexed.
  change (imap (λ i x, (i, x)) l) with (imap (λ i x, (0 + i, x)) l).
  generalize 0. induction l as [|x l IH]; intros k; [done|].
  cbn [imap]. rewrite imap_shift, fmap_cons, IH. done.
Qed.

Lemma limit_fmap {A B} (f : A → B) (n : Z) (l : list A) :
  limit n (f <$> l) = f <$> limit n l.
Proof. unfold limit. case_bool_decide; [done|]. by rewrite fmap_take. Qed.

Lemma offset_fmap {A B} (f : A → B) (n : Z) (l : list A) :
  offset n (f <$> l) = f <$> offset n l.
Proof. unfold offset. by rewrite fmap_drop. Qed.

Lemma first_row_None {A} (P : A → Prop) `{∀ x, Decision (P x)} (l : list A) :
  first_row P l = None ↔ ∀ x, x ∈ l → ¬ P x.
Proof. unfold first_row. rewrite list_find_None, Forall_forall. done. Qed.

Lemma first_row_Some {A} (P : A → Prop) `{∀ x, Decision (P x)} (l : list A) i x :
  first_row P l = Some (i, x)
  ↔ l !! i = Some x ∧ P x ∧ ∀ j y, l !! j = Some y → j < i → ¬ P y.
Proof. unfold first_row. apply list_find_Some. Qed.

Lemma username_taken (name : string) (l : list users.row) :
  name ∈ users.username <$> l ↔ is_Some (first_row (λ r, users.username r = name) l).
Proof.
  rewrite list_elem_of_fmap. split.
  - intros (r & -> & Hr).
    destruct (first_row _ l) as [p|] eqn:E; [by eexists|].
    rewrite first_row_None in E. by destruct (E r Hr).
  - intros [[i r] E]. apply first_row_Some in E as (Hi & Hr & _).
    exists r. split; [done|]. by eapply list_elem_of_lookup_2.
Qed.

(** ** Loaded objects map to views without an error *)

Lemma rmap_validate_load (l : list chats.row) :
  rmap (λ x, user_schema.Chat.validate (user_model.Chat.chat_id x) (user_model.Chat.owner x))
       (load_Chat <$> l)
  = Ok (view_chat <$> l).
Proof.
  induction l as [|c l IH]; [done|].
  rewrite !fmap_cons. cbn [rmap]. rewrite IH. done.
Qed.

Lemma user_db_to_view_load (d : Database) (r : users.row) (include_auth : bool) :
  Mappers.user_db_to_view (Some (load_User d r)) include_auth
  = Ok (Some (view_of_row d r include_auth)).
Proof.
  unfold Mappers.user_db_to_view, load_User, chats_of. cbn.
  rewrite rmap_validate_load. cbn. unfold view_of_row.
  destruct include_auth; done.
Qed.

Lemma first_User_by_username (name : string) (s : Session) :
  first (filter_by (λ u, user_model.User.username u = name) (query_User s))
  = prod_map id (load_User (engine s))
      <$> first_row (λ r, users.username r = name) (users_table (engine s)).
Proof. unfold query_User. by rewrite first_query. Qed.

Lemma first_User_by_email (email : string) (s : Session) :
  first (filter_by (λ u, user_model.User.email u = email) (query_User s))
  = prod_map id (load_User (engine s))
      <$> first_row (λ r, users.email r = email) (users_table (engine s)).
Proof. unfold query_User. by rewrite first_query. Qed.

Lemma get_user_eq (name : string) (s : Session) :
  get_user name s
  = (Ok ((λ p, view_of_row (engine s) p.2 true)
           <$> first_row (λ r, users.username r = name) (users_table (engine s))), s).
Proof.
  unfold get_user, bind, query, lift. rewrite first_User_by_username.
  destruct (first_row _ _) as [[i r]|]; [|done].
  cbn [fmap option_fmap option_map prod_map snd].
  by rewrite user_db_to_view_load.
Qed.

Lemma get_user_by_email_eq (email : string) (s : Session) :
  get_user_by_email email s
  = (Ok ((λ p, view_of_row (engine s) p.2 false)
           <$> first_row (λ r, users.email r = email) (users_table (engine s))), s).
Proof.
  unfold get_user_by_email, bind, query, lift. rewrite first_User_by_email.
  destruct (first_row _ _) as [[i r]|]; [|done].
  cbn [fmap option_fmap option_map prod_map snd].
  by rewrite user_db_to_view_load.
Qed.

Lemma rmap_view_rows (d : Database) (l : list (nat * users.row)) :
  rmap (λ u, Mappers.user_db_to_view (Some u.2) false)
       (prod_map id (load_User d) <$> l)
  = Ok ((λ p, Some (view_of_row d p.2 false)) <$> l).
Proof.
  induction l as [|[i r] l IH]; [done|].
  rewrite !fmap_cons. cbn [rmap prod_map snd].
  rewrite user_db_to_view_load, IH. done.
Qed.

Lemma get_users_eq (skip lim : Z) (s : Session) :
  get_users skip lim s
  = (Ok (Some <$> ((λ r, view_of_row (engine s) r false)
                     <$> limit lim (offset skip (users_table (engine s))))), s).
Proof.
  unfold get_users, bind, query, lift, query_User.
  rewrite offset_fmap, limit_fmap, rmap_view_rows. do 2 f_equal.
  rewrite <- (snd_indexed (users_table (engine s))) at 2.
  rewrite offset_fmap, limit_fmap, <- !list_fmap_compose. done.
Qed.

(** ** The unit of work *)

Lemma add_once_new (c : change) (s : Session) :
  c ∉ pending s → add_once c s = mkSession (engine s) (pending s ++ [c]).
Proof. intros Hc. unfold add_once. by rewrite decide_False. Qed.

Lemma add_once_old (c : change) (s : Session) :
  c ∈ pending s → add_once c s = s.
Proof. intros Hc. unfold add_once. by rewrite decide_True. Qed.

(** ** Creating a user *)

Section create_properties.
Variable get_password_hash : string → string.

Lemma create_user_new_session (uuid4 : UUID) (ua : user_schema.UserAuth.t) (d : Database) :
  create_user get_password_hash uuid4 ua (SessionLocal d)
  = match first_row (λ r, users.username r = user_schema.UserAuth.username ua)
            (users_table d) with
    | Some _ => (Ok None, SessionLocal d)
    | None =>
        if decide (user_schema.UserAuth.auth_type ua = 1%Z)
        then (Ok (Some (user_schema.User.new uuid4 (user_schema.UserAuth.username ua))),
              SessionLocal (signed_up get_password_hash uuid4 ua d))
        else (Ok None, SessionLocal d)
    end.
Proof.
  unfold create_user, bind. rewrite get_user_eq. cbn [engine SessionLocal].
  destruct (first_row _ _) as [p|]; [done|].
  cbn [fmap option_fmap option_map].
  destruct (decide (user_schema.UserAuth.auth_type ua = 1%Z)) as [Hty|Hty]; [|done].
  cbn.
  rewrite (add_once_new _ (mkSession d [])) by apply not_elem_of_nil.
  rewrite (add_once_new (Insert (EUser _)))
    by (cbn; intros Hin%list_elem_of_singleton; discriminate).
  rewrite add_once_old by (cbn; apply list_elem_of_here).
  unfold db_commit. cbn. rewrite Hty. reflexivity.
Qed.

(** C1: whatever the session holds, [create_user] returns [None] and
    leaves the session exactly as it was, both when a user of that
    username is stored already and when the [auth_type] is not 1. *)
Theorem create_user_rejects (uuid4 : UUID) (ua : user_schema.UserAuth.t) (s : Session) :
  user_schema.UserAuth.username ua ∈ users.username <$> users_table (engine s)
  ∨ user_schema.UserAuth.auth_type ua ≠ 1%Z →
  create_user get_password_hash uuid4 ua s = (Ok None, s).
Proof.
  intros Hfail. unfold create_user, bind. rewrite get_user_eq.
  destruct (first_row _ _) as [p|] eqn:E; cbn; [done|].
  destruct Hfail as [Hin|Hty].
  - apply username_taken in Hin as [p Hp]. congruence.
  - by rewrite decide_False.
Qed.

(** C2: for a username no stored user has and [auth_type = 1],
    [create_user] returns the new user's view; the database gains one user
    row and one credential, whose secret is the hash of the plaintext, so
    that no credential it did not hold before equals the plaintext as long
    as the hash differs from its argument. *)
Theorem create_user_stores_hash (uuid4 : UUID) (ua : user_schema.UserAuth.t) (d : Database) :
  user_schema.UserAuth.username ua ∉ users.username <$> users_table d →
  user_schema.UserAuth.auth_type ua = 1%Z →
  ∃ d',
    create_user get_password_hash uuid4 ua (SessionLocal d)
    = (Ok (Some (user_schema.User.new uuid4 (user_schema.UserAuth.username ua))),
       SessionLocal d')
    ∧ users_table d'
      = users_table d
        ++ [users.mk uuid4 (user_schema.UserAuth.username ua) "" "" false
              user_schema.User.default_prompt_default true]
    ∧ user_auth_table d'
      = user_auth_table d
        ++ [user_model.UserAuth.mk (get_password_hash (user_schema.UserAuth.secret ua))
              1 (Some uuid4)]
    ∧ chats_table d' = chats_table d
    ∧ (get_password_hash (user_schema.UserAuth.secret ua) ≠ user_schema.UserAuth.secret ua →
       ∀ a, a ∈ user_auth_table d' → a ∉ user_auth_table d →
            user_model.UserAuth.secret a ≠ user_schema.UserAuth.secret ua).
Proof.
  intros Hfresh Hty. rewrite create_user_new_session.
  destruct (first_row _ _) as [p|] eqn:E.
  { destruct Hfresh. apply username_taken. by eexists. }
  rewrite decide_True by done.
  eexists. split; [reflexivity|]. cbn. repeat split.
  intros Hne a Ha Hnew. apply elem_of_app in Ha as [Ha|Ha]; [done|].
  apply list_elem_of_singleton in Ha as ->. done.
Qed.

End create_properties.

Lemma create_user_rejects_witness :
  create_user sample.hash 8 sample.alice (SessionLocal sample.with_alice)
  = (Ok None, SessionLocal sample.with_alice)
  ∧ create_user sample.hash 9 sample.bob_token (SessionLocal sample.empty)
    = (Ok None, SessionLocal sample.empty).
Proof.
  split; apply create_user_rejects.
  - left. cbn. apply list_elem_of_here.
  - right. cbn. lia.
Defined.

Lemma create_user_stores_hash_witness :
  ∃ d',
    create_user sample.hash 7 sample.alice (SessionLocal sample.empty)
    = (Ok (Some (user_schema.User.new 7 "alice")), SessionLocal d')
    ∧ users_table d' = [sample.alice_row]
    ∧ user_auth_table d' = [sample.alice_auth]
    ∧ chats_table d' = []
    ∧ (sample.hash "hunter2" ≠ "hunter2" →
       ∀ a, a ∈ user_auth_table d' → a ∉ [] →
            user_model.UserAuth.secret a ≠ "hunter2").
Proof.
  apply (create_user_stores_hash sample.hash 7 sample.alice sample.empty).
  - cbn. apply not_elem_of_nil.
  - reflexivity.
Defined.

(** ** Looking a user up *)

(** C3: [get_user] returns [None] when no stored username equals the one
    asked for; otherwise it returns the view of the first such row, whose
    auth collection is the stored credentials of that user, one view each,
    hence not empty when there are any. [get_user_by_email] does the same
    by email, and the view it returns has an empty auth collection. *)
Theorem get_user_with_auth_by_email_without (s : Session) (name email : string) :
  let d := engine s in
  ((∀ r, r ∈ users_table d → users.username r ≠ name) →
   get_user name s = (Ok None, s))
  ∧ (∀ i r, first_row (λ r, users.username r = name) (users_table d) = Some (i, r) →
       ∃ v, get_user name s = (Ok (Some v), s)
            ∧ user_schema.User.username v = name
            ∧ user_schema.User.auth v = view_auth name <$> auth_of d (users.id r)
            ∧ (auth_of d (users.id r) ≠ [] → user_schema.User.auth v ≠ []))
  ∧ ((∀ r, r ∈ users_table d → users.email r ≠ email) →
     get_user_by_email email s = (Ok None, s))
  ∧ (∀ i r, first_row (λ r, users.email r = email) (users_table d) = Some (i, r) →
       ∃ v, get_user_by_email email s = (Ok (Some v), s)
            ∧ user_schema.User.email v = email
            ∧ user_schema.User.auth v = []).
Proof.
  intros d. subst d. rewrite get_user_eq, get_user_by_email_eq. repeat split.
  - intros Hnone.
    by rewrite (proj2 (first_row_None (λ r, users.username r = name) _) Hnone).
  - intros i r E. rewrite E. apply first_row_Some in E as (_ & Hr & _).
    eexists. split; [reflexivity|]. cbn. rewrite Hr. repeat split.
    intros Hne Hnil. by apply fmap_nil_inv in Hnil.
  - intros Hnone.
    by rewrite (proj2 (first_row_None (λ r, users.email r = email) _) Hnone).
  - intros i r E. rewrite E. apply first_row_Some in E as (_ & Hr & _).
    eexists. split; [reflexivity|]. cbn. done.
Qed.

Lemma get_user_with_auth_by_email_without_witness :
  (∃ v, get_user "alice" (SessionLocal sample.with_alice)
        = (Ok (Some v), SessionLocal sample.with_alice)
        ∧ user_schema.User.auth v
          = [user_schema.UserAuth.mk "alice" "$2b$hunter2" 1])
  ∧ (∃ v, get_user_by_email "" (SessionLocal sample.with_alice)
          = (Ok (Some v), SessionLocal sample.with_alice)
          ∧ user_schema.User.auth v = [])
  ∧ get_user "bob" (SessionLocal sample.with_alice)
    = (Ok None, SessionLocal sample.with_alice).
Proof.
  destruct (get_user_with_auth_by_email_without
              (SessionLocal sample.with_alice) "alice" "")
    as (_ & Hname & _ & Hmail).
  destruct (get_user_with_auth_by_email_without
              (SessionLocal sample.with_alice) "bob" "")
    as (Hnone & _).
  split; [|split].
  - destruct (Hname 0 sample.alice_row eq_refl) as (v & Hv & _ & Hauth & _).
    exists v. split; [exact Hv | exact Hauth].
  - destruct (Hmail 0 sample.alice_row eq_refl) as (v & Hv & _ & Hauth).
    exists v. split; [exact Hv | exact Hauth].
  - apply Hnone. intros r Hr%list_elem_of_singleton. subst r. discriminate.
Defined.

(** ** The public form of a view *)

Lemma rmap_mask_secret (l : list user_schema.UserAuth.t) :
  rmap user_schema.User.mask_secret ((λ a, VDict (user_schema.UserAuth.dict a)) <$> l)
  = Ok ((λ a, VDict (dict_set "secret" (VStr user_schema.User.mask)
                       (user_schema.UserAuth.dict a))) <$> l).
Proof.
  induction l as [|a l IH]; [done|].
  rewrite !fmap_cons. cbn [rmap]. rewrite IH. done.
Qed.

(** C4: for every view, [to_public_dict] returns a dictionary; its
    ["auth"] entry is a list with one dictionary per auth record, and the
    ["secret"] of each of them is the mask ["********"], whatever the
    record held. *)
Theorem to_public_dict_masks (u : user_schema.User.t) :
  ∃ d auths,
    user_schema.User.to_public_dict u = Ok d
    ∧ dict_get "auth" d = Some (VList auths)
    ∧ length auths = length (user_schema.User.auth u)
    ∧ Forall (λ a, ∃ e, a = VDict e
                        ∧ dict_get "secret" e = Some (VStr "********"))
             auths.
Proof.
  unfold user_schema.User.to_public_dict. cbv zeta.
  assert (Hget : dict_get "auth" (user_schema.User.dict u)
                 = Some (VList ((λ a, VDict (user_schema.UserAuth.dict a))
                                  <$> user_schema.User.auth u))) by reflexivity.
  rewrite Hget, rmap_mask_secret. cbn [rbind].
  eexists _, _. split; [reflexivity|]. split; [reflexivity|].
  split; [by rewrite length_fmap|].
  apply Forall_fmap, Forall_forall. intros a _. cbn. eexists. split; reflexivity.
Qed.

Example to_public_dict_sample :
  user_schema.User.to_public_dict
    (user_schema.User.mk "alice" 7 true "" "Alice" false "p"
       [user_schema.UserAuth.mk "alice" "$2b$hunter2" 1] [])
  = Ok [("username", VStr "alice"); ("id", VUuid 7); ("is_active", VBool true);
        ("email", VStr ""); ("full_name", VStr "Alice"); ("theme_light", VBool false);
        ("default_prompt", VStr "p");
        ("auth", VList [VDict [("username", VStr "alice"); ("secret", VStr "********");
                               ("auth_type", VInt 1)]]);
        ("chats", VList [])].
Proof. reflexivity. Qed.

(** ** Updating a user *)

Lemma update_loop (u : user_schema.User.t) (user : user_model.User.t) :
  foldl (λ user kv,
           if bool_decide (kv.1 ∈ ["auth"; "chats"]) then user
           else user_model.User.setattr user kv.1 kv.2)
        user (user_schema.User.dict u)
  = user_model.User.mk (user_schema.User.id u) (user_schema.User.username u)
      (user_schema.User.email u) (user_schema.User.full_name u)
      (user_schema.User.theme_light u) (user_schema.User.default_prompt u)
      (user_schema.User.is_active u)
      (user_model.User.auth user) (user_model.User.chats user).
Proof. reflexivity. Qed.

Lemma update_user_new_session (u : user_schema.User.t) (d : Database) :
  update_user u (SessionLocal d)
  = match first_row (λ r, users.username r = user_schema.User.username u)
            (users_table d) with
    | None => (Ok None, SessionLocal d)
    | Some (i, r) =>
        if decide (user_schema.User.id u ∈ users.id <$> delete i (users_table d))
        then (Raise IntegrityError,
              mkSession d
                [Update i (user_model.User.mk
                             (user_schema.User.id u) (user_schema.User.username u)
                             (user_schema.User.email u) (user_schema.User.full_name u)
                             (user_schema.User.theme_light u)
                             (user_schema.User.default_prompt u)
                             (user_schema.User.is_active u)
                             (user_model.User.auth (load_User d r))
                             (user_model.User.chats (load_User d r)))])
        else
          (Ok (Some (load_User
                       (mkDatabase (<[i := columns_of_view u]> (users_table d))
                          (user_auth_table d) (chats_table d))
                       (columns_of_view u))),
           SessionLocal
             (mkDatabase (<[i := columns_of_view u]> (users_table d))
                (user_auth_table d) (chats_table d)))
    end.
Proof.
  unfold update_user, bind, query.
  rewrite first_User_by_username. cbn [engine SessionLocal].
  destruct (first_row _ _) as [[i r]|]; [|done].
  cbn [fmap option_fmap option_map prod_map id]. rewrite update_loop.
  unfold db_dirty, db_commit.
  cbn [pending engine SessionLocal app flush apply_change rbind user_model.User.id
       fst snd].
  repeat case_decide; try done; reflexivity.
Qed.




(** ** Removing a chat *)

Lemma query_Chat_by_chat_id (cid : string) (s : Session) :
  filter_by (λ c, user_model.Chat.chat_id c = cid) (query_Chat s)
  = prod_map id load_Chat
      <$> filter (λ p, chats.chat_id p.2 = cid) (indexed (chats_table (engine s))).
Proof.
  unfold query_Chat, indexed.
  change (imap (λ i x, (i, x)) ?l) with (imap (λ i x, (0 + i, x)) l).
  by rewrite filter_by_imap.
Qed.

Lemma remove_chat_new_session (chat : user_schema.Chat.t) (d : Database) :
  match filter (λ c, chats.chat_id c = user_schema.Chat.chat_id chat) (chats_table d) with
  | [] =>
      remove_chat chat (SessionLocal d) = (Raise NoResultFound, SessionLocal d)
  | [c] =>
      ∃ i, chats_table d !! i = Some c
           ∧ remove_chat chat (SessionLocal d)
             = (Ok (),
                SessionLocal (mkDatabase (users_table d) (user_auth_table d)
                                (delete i (chats_table d))))
           ∧ delete i (chats_table d)
             = filter (λ c, chats.chat_id c ≠ user_schema.Chat.chat_id chat)
                 (chats_table d)
  | _ :: _ :: _ =>
      remove_chat chat (SessionLocal d) = (Raise MultipleResultsFound, SessionLocal d)
  end.
Proof.
  set (cid := user_schema.Chat.chat_id chat).
  unfold remove_chat, bind. rewrite query_Chat_by_chat_id.
  cbn [engine SessionLocal]. fold cid. unfold indexed.
  change (imap (λ i x, (i, x)) ?l) with (imap (λ i x, (0 + i, x)) l).
  destruct (filter (λ c, chats.chat_id c = cid) (chats_table d))
    as [|c [|c' m]] eqn:E.
  - by rewrite (filter_imap_nil (λ c, chats.chat_id c = cid) _ 0 E).
  - destruct (filter_imap_one (λ c, chats.chat_id c = cid) _ 0 c E)
      as (i & Hf & Hi & Hd).
    exists i. rewrite Hf. split; [done|]. split; [reflexivity|]. done.
  - pose proof (filter_imap_length (λ c, chats.chat_id c = cid) (chats_table d) 0) as Hl.
    rewrite E in Hl.
    destruct (filter _ (imap _ _)) as [|p [|p' q]]; [done..|].
    reflexivity.
Qed.

(** C6: [remove_chat] looks for the stored chats whose chat_id is the
    given one. With none it raises [NoResultFound], with two or more it
    raises [MultipleResultsFound], and in both cases the session is as
    before: no row is deleted. With exactly one it returns, and the
    database it commits has lost that row and no other. *)
Theorem remove_chat_exactly_one (chat : user_schema.Chat.t) (d : Database) :
  let cid := user_schema.Chat.chat_id chat in
  let matching := filter (λ c, chats.chat_id c = cid) (chats_table d) in
  (matching = [] →
   remove_chat chat (SessionLocal d) = (Raise NoResultFound, SessionLocal d))
  ∧ (2 ≤ length matching →
     remove_chat chat (SessionLocal d) = (Raise MultipleResultsFound, SessionLocal d))
  ∧ (∀ c, matching = [c] →
       ∃ i d',
         remove_chat chat (SessionLocal d) = (Ok (), SessionLocal d')
         ∧ chats_table d !! i = Some c
         ∧ chats_table d' = delete i (chats_table d)
         ∧ chats_table d' = filter (λ c, chats.chat_id c ≠ cid) (chats_table d)
         ∧ users_table d' = users_table d
         ∧ user_auth_table d' = user_auth_table d).
Proof.
  intros cid matching. pose proof (remove_chat_new_session chat d) as Hrun.
  fold cid matching in Hrun. repeat split.
  - intros E. by rewrite E in Hrun.
  - intros Hlen. destruct matching as [|c [|c' m]]; cbn in Hlen; [lia..|done].
  - intros c E. rewrite E in Hrun. destruct Hrun as (i & Hi & Hrun & Hd).
    exists i. eexists. split; [exact Hrun|]. done.
Qed.

Lemma remove_chat_exactly_one_witness :
  remove_chat sample.chat1 (SessionLocal sample.with_alice)
  = (Raise NoResultFound, SessionLocal sample.with_alice)
  ∧ remove_chat sample.chat1 (SessionLocal sample.with_twin_chats)
    = (Raise MultipleResultsFound, SessionLocal sample.with_twin_chats)
  ∧ ∃ d', remove_chat sample.chat1 (SessionLocal sample.with_chat)
          = (Ok (), SessionLocal d')
          ∧ chats_table d' = [].
Proof.
  split; [|split].
  - by apply (remove_chat_exactly_one sample.chat1 sample.with_alice).
  - apply (remove_chat_exactly_one sample.chat1 sample.with_twin_chats).
    vm_compute. lia.
  - destruct (remove_chat_exactly_one sample.chat1 sample.with_chat) as (_ & _ & Hone).
    destruct (Hone (chats.mk "c1" "alice" None) eq_refl)
      as (i & d' & Hrun & _ & _ & Hd & _).
    exists d'. split; [exact Hrun|]. rewrite Hd. reflexivity.
Defined.

(** ** The two mappers *)

Lemma mapped_all_unmapped {A B} (f : B → pyval) (l : list B) :
  user_model.mapped_all (A:=A) ((λ x, user_model.Unmapped (f x)) <$> l)
  = match l with
    | [] => Ok []
    | _ :: _ => Raise AttributeError
    end.
Proof. by destruct l. Qed.

Lemma user_view_to_db_given (uuid4 : UUID) (u : user_schema.User.t)
    (ua : option user_schema.UserAuth.t) :
  Mappers.user_view_to_db uuid4 (Some u) ua
  = match user_schema.User.auth u, user_schema.User.chats u with
    | [], [] =>
        Ok (user_model.User.mk (user_schema.User.id u) (user_schema.User.username u)
              (user_schema.User.email u) (user_schema.User.full_name u)
              (user_schema.User.theme_light u) (user_schema.User.default_prompt u)
              (user_schema.User.is_active u)
              (option_list (Mappers.user_auth_view_to_db ua (user_schema.User.id u)))
              [],
            Mappers.user_auth_view_to_db ua (user_schema.User.id u))
    | _, _ => Raise AttributeError
    end.
Proof.
  unfold Mappers.user_view_to_db, user_model.User.init.
  cbn [Mappers.resolve_user rbind]. rewrite !mapped_all_unmapped.
  destruct (user_schema.User.auth u) as [|a l]; [|done].
  destruct (user_schema.User.chats u) as [|c k]; [|done].
  destruct ua; reflexivity.
Qed.

(** C7: the round trip stops in [user_view_to_db]. A stored user with a
    credential, mapped to a view with its auth records, gives a view that
    [user_view_to_db] refuses with [AttributeError], in the constructor of
    the row; so does the view of a stored user with a chat. No row comes
    back whose scalar fields could be compared. *)
Theorem round_trip_stops_at_the_constructor :
  (∃ v,
     Mappers.user_db_to_view
       (Some (load_User sample.with_alice sample.alice_row)) true = Ok (Some v)
     ∧ user_schema.User.auth v = [user_schema.UserAuth.mk "alice" "$2b$hunter2" 1]
     ∧ Mappers.user_view_to_db 3 (Some v) None = Raise AttributeError)
  ∧ (∃ v,
       Mappers.user_db_to_view
         (Some (load_User more.with_owned_chat sample.alice_row)) false = Ok (Some v)
       ∧ user_schema.User.chats v = [user_schema.Chat.mk "c1" "alice"]
       ∧ Mappers.user_view_to_db 3 (Some v) None = Raise AttributeError).
Proof.
  split; eexists; (split; [reflexivity|]); split; reflexivity.
Qed.

(** C9: for a view with a chat, [user_view_to_db] raises
    [AttributeError] in the constructor of the row, with or without a
    credential passed along: the loop that builds a Chat object from each
    chat_id is not reached, and no Chat object is built. *)
Theorem view_with_chat_builds_no_chat :
  Mappers.user_view_to_db 3 (Some more.view_with_chat) None = Raise AttributeError
  ∧ Mappers.user_view_to_db 3 (Some more.view_with_chat) (Some sample.alice)
    = Raise AttributeError
  ∧ ¬ (∃ user a,
         Mappers.user_view_to_db 3 (Some more.view_with_chat) None = Ok (user, a)).
Proof.
  split; [reflexivity|]. split; [reflexivity|].
  intros (user & a & Hrun). vm_compute in Hrun. discriminate.
Qed.

Example view_to_db_sample :
  Mappers.user_view_to_db 3
    (Some (user_schema.User.mk "alice" 7 true "" "" false "p" []
             [user_schema.Chat.mk "c1" "alice"; user_schema.Chat.mk "c2" "alice"]))
    None
  = Raise AttributeError.
Proof. reflexivity. Qed.

Example view_to_db_plain_sample :
  Mappers.user_view_to_db 3
    (Some (user_schema.User.mk "alice" 7 true "" "" false "p" [] []))
    (Some sample.alice)
  = Ok (user_model.User.mk 7 "alice" "" "" false "p" true
          [user_model.UserAuth.mk "hunter2" 1 (Some 7%N)] [],
        Some (user_model.UserAuth.mk "hunter2" 1 (Some 7%N))).
Proof. reflexivity. Qed.

Example view_to_db_needs_an_argument :
  Mappers.user_view_to_db 3 None None
  = Raise (AssertionError "One of User or UserAuth must be passed").
Proof. reflexivity. Qed.

(** ** Listing users *)

(** C10: [get_users] returns one view per selected row, none of them
    missing, and every one of them has an empty auth collection, whatever
    credentials the database holds. *)
Theorem get_users_without_auth (skip lim : Z) (s : Session) :
  ∃ vs,
    get_users skip lim s = (Ok (Some <$> vs), s)
    ∧ length vs = length (limit lim (offset skip (users_table (engine s))))
    ∧ Forall (λ v, user_schema.User.auth v = []) vs.
Proof.
  rewrite get_users_eq. eexists. split; [reflexivity|].
  split; [by rewrite length_fmap|].
  by apply Forall_fmap, Forall_forall.
Qed.

Example get_users_sample :
  (get_users 0 100 (SessionLocal sample.with_alice)).1
  = Ok [Some (user_schema.User.mk "alice" 7 true "" "" false
                user_schema.User.default_prompt_default [] [])].
Proof. reflexivity. Qed.

(** ** Usernames stay unique *)

Lemma create_chat_new_session (chat : user_schema.Chat.t) (d : Database) :
  create_chat chat (SessionLocal d)
  = (Ok (),
     SessionLocal
       (mkDatabase (users_table d) (user_auth_table d)
          (chats_table d
             ++ [chats.mk (user_schema.Chat.chat_id chat)
                   (user_schema.Chat.owner chat) None]))).
Proof. reflexivity. Qed.

Lemma seed_db_new_session (uuid4 : UUID) (d : Database) :
  seed_db uuid4 (SessionLocal d)
  = match first_row (λ r, users.username r = "system") (users_table d) with
    | Some _ => (Ok (), SessionLocal d)
    | None =>
        (Ok (),
         SessionLocal
           (mkDatabase
              (users_table d
                 ++ [users.mk uuid4 "system" "" "Default User" false
                       user_schema.User.default_prompt_default true])
              (user_auth_table d ++ [user_model.UserAuth.mk "" 0 (Some uuid4)])
              (chats_table d)))
    end.
Proof.
  unfold seed_db, bind, query. rewrite first_User_by_username.
  cbn [engine SessionLocal].
  destruct (first_row _ _) as [p|]; [done|].
  cbn [fmap option_fmap option_map]. unfold db_add. cbn.
  rewrite (add_once_new _ (mkSession d [])) by apply not_elem_of_nil.
  rewrite add_once_new
    by (cbn; intros Hin%list_elem_of_singleton; discriminate).
  reflexivity.
Qed.

Lemma fresh_username (name : string) (l : list users.row) :
  first_row (λ r, users.username r = name) l = None → name ∉ users.username <$> l.
Proof.
  intros E Hin. apply username_taken in Hin as [p Hp]. congruence.
Qed.

Lemma usernames_insert (i : nat) (r r' : users.row) (l : list users.row) :
  l !! i = Some r → users.username r' = users.username r →
  users.username <$> (<[i := r']> l) = users.username <$> l.
Proof.
  intros Hi Hname. rewrite list_fmap_insert, Hname.
  apply list_insert_id. by rewrite list_lookup_fmap, Hi.
Qed.

(** A request either leaves the usernames as they are or appends one that
    was not there. *)
Lemma run_op_usernames (get_password_hash : string → string) (o : op) (d : Database) :
  let before := users.username <$> users_table d in
  let after := users.username <$> users_table (run_op get_password_hash o d) in
  after = before ∨ (∃ name, (name ∉ before) ∧ after = before ++ [name]).
Proof.
  intros before after. subst before after.
  destruct o as [name|email|skip lim|uuid4 ua|u|chat|chat|uuid4];
    unfold run_op, exec.
  - rewrite get_user_eq. by left.
  - rewrite get_user_by_email_eq. by left.
  - rewrite get_users_eq. by left.
  - rewrite create_user_new_session.
    destruct (first_row _ _) as [p|] eqn:E; [by left|].
    case_decide; [|by left].
    right. exists (user_schema.UserAuth.username ua).
    split; [by apply fresh_username|]. cbn. by rewrite fmap_app.
  - rewrite update_user_new_session.
    destruct (first_row _ _) as [[i r]|] eqn:E; [|by left].
    case_decide; [by left|].
    left. cbn. apply first_row_Some in E as (Hi & Hr & _).
    by apply usernames_insert with r.
  - rewrite create_chat_new_session. by left.
  - pose proof (remove_chat_new_session chat d) as Hrun.
    destruct (filter _ (chats_table d)) as [|c [|c' m]].
    + rewrite Hrun. by left.
    + destruct Hrun as (i & _ & -> & _). by left.
    + rewrite Hrun. by left.
  - rewrite seed_db_new_session.
    destruct (first_row _ _) as [p|] eqn:E; [by left|].
    right. exists "system".
    split; [by apply fresh_username|]. cbn. by rewrite fmap_app.
Qed.

Lemma run_op_unique (get_password_hash : string → string) (o : op) (d : Database) :
  usernames_unique d → usernames_unique (run_op get_password_hash o d).
Proof.
  unfold usernames_unique. intros Hd.
  destruct (run_op_usernames get_password_hash o d) as [->|(name & Hnew & ->)];
    [done|].
  apply NoDup_app. split; [done|]. split; [|apply NoDup_singleton].
  intros x Hx Hx'%list_elem_of_singleton. by subst x.
Qed.

(** C8: from a database in which no two users share a username, any
    sequence of requests (lookups, listings, sign-ups, updates, chat
    creations and removals, seeding), each run to its end before the next
    starts, leads to a database in which no two users share a username. *)
Theorem usernames_stay_unique (get_password_hash : string → string)
    (ops : list op) (d : Database) :
  usernames_unique d → usernames_unique (run get_password_hash ops d).
Proof.
  unfold run. induction ops as [|o ops IH] in d |- *; intros Hd; [done|].
  cbn [foldl]. apply IH. by apply run_op_unique.
Qed.

Lemma usernames_stay_unique_witness :
  usernames_unique sample.with_alice
  ∧ usernames_unique (run sample.hash sample.requests sample.with_alice)
  ∧ users.username <$> users_table (run sample.hash sample.requests sample.with_alice)
    = ["alice"; "system"; "carol"].
Proof.
  assert (Hunique : usernames_unique sample.with_alice).
  { unfold usernames_unique. cbn. apply NoDup_singleton. }
  split; [exact Hunique|]. split.
  - exact (usernames_stay_unique sample.hash sample.requests sample.with_alice Hunique).
  - vm_compute. reflexivity.
Defined.

(** ** One request after another: what accumulates *)

Lemma first_row_snoc {A} (P : A → Prop) `{∀ x, Decision (P x)} (l : list A) (x : A) :
  first_row P l = None → P x → first_row P (l ++ [x]) = Some (length l, x).
Proof.
  intros Hnone Hx. unfold first_row in *. rewrite list_find_app_r by done.
  cbn. by rewrite decide_True.
Qed.

Lemma first_row_insert_same {A} (P : A → Prop) `{∀ x, Decision (P x)}
    (l : list A) (i : nat) (x y : A) :
  first_row P l = Some (i, x) → P y → first_row P (<[i := y]> l) = Some (i, y).
Proof.
  unfold first_row. intros (Hi & Hx & Hleast)%list_find_Some Hy.
  apply list_find_insert_Some. right. left.
  split; [done|]. split; [done|]. split; [by eapply lookup_lt_Some|]. done.
Qed.

Lemma owned_snoc (l : list user_model.UserAuth.t) (a : user_model.UserAuth.t)
    (i : UUID) :
  user_model.UserAuth.user_id a = Some i →
  filter (λ a, user_model.UserAuth.user_id a = Some i) (l ++ [a])
  = filter (λ a, user_model.UserAuth.user_id a = Some i) l ++ [a].
Proof. intros Ha. rewrite filter_app, filter_cons. by rewrite decide_True. Qed.

Section accumulate.
Variable get_password_hash : string → string.

(** What a request does to the table of credentials. *)
Lemma run_op_credentials (o : op) (d : Database) :
  let after := user_auth_table (run_op get_password_hash o d) in
  after = user_auth_table d
  ∨ (∃ uuid4 ua,
       o = Create_user uuid4 ua
       ∧ user_schema.UserAuth.auth_type ua = 1%Z
       ∧ after = user_auth_table d
                 ++ [user_model.UserAuth.mk
                       (get_password_hash (user_schema.UserAuth.secret ua)) 1 (Some uuid4)])
  ∨ (∃ uuid4,
       o = Seed_db uuid4
       ∧ after = user_auth_table d ++ [user_model.UserAuth.mk "" 0 (Some uuid4)]).
Proof.
  intros after. subst after.
  destruct o as [name|email|skip lim|uuid4 ua|u|chat|chat|uuid4];
    unfold run_op, exec.
  - rewrite get_user_eq. by left.
  - rewrite get_user_by_email_eq. by left.
  - rewrite get_users_eq. by left.
  - rewrite create_user_new_session.
    destruct (first_row _ _) as [p|]; [by left|].
    case_decide; [|by left]. right. left. by exists uuid4, ua.
  - rewrite update_user_new_session.
    destruct (first_row _ _) as [[i r]|]; [|by left].
    case_decide; by left.
  - rewrite create_chat_new_session. by left.
  - pose proof (remove_chat_new_session chat d) as Hrun.
    destruct (filter _ (chats_table d)) as [|c [|c' m]].
    + rewrite Hrun. by left.
    + destruct Hrun as (i & _ & -> & _). by left.
    + rewrite Hrun. by left.
  - rewrite seed_db_new_session.
    destruct (first_row _ _) as [p|]; [by left|].
    right. right. by exists uuid4.
Qed.

Lemma run_cons (o : op) (ops : list op) (d : Database) :
  run get_password_hash (o :: ops) d
  = run get_password_hash ops (run_op get_password_hash o d).
Proof. reflexivity. Qed.

Lemma run_usernames_prefix (ops : list op) (d : Database) :
  (users.username <$> users_table d)
    `prefix_of` (users.username <$> users_table (run get_password_hash ops d)).
Proof.
  induction ops as [|o ops IH] in d |- *; [done|].
  rewrite run_cons. etrans; [|apply IH].
  destruct (run_op_usernames get_password_hash o d) as [->|(name & _ & ->)];
    [done|by apply prefix_app_r].
Qed.

(** X1: no request deletes or renames a user: after any sequence of requests
    the usernames the database started with are still there, in the same
    places, followed by those that were added; the number of users never
    goes down. *)
Theorem users_are_never_deleted (ops : list op) (d : Database) :
  (users.username <$> users_table d)
    `prefix_of` (users.username <$> users_table (run get_password_hash ops d))
  ∧ length (users_table d) ≤ length (users_table (run get_password_hash ops d))
  ∧ (∀ name, name ∈ users.username <$> users_table d →
             name ∈ users.username <$> users_table (run get_password_hash ops d)).
Proof.
  pose proof (run_usernames_prefix ops d) as Hpre. split; [done|]. split.
  - apply prefix_length in Hpre. by rewrite !length_fmap in Hpre.
  - intros name Hname. destruct Hpre as [k ->]. apply elem_of_app. by left.
Qed.

(** X2: no request deletes or rewrites a credential: after any sequence of
    requests the credentials the database started with are still there,
    unchanged and in the same places, followed by those that were added. *)
Theorem credentials_are_append_only (ops : list op) (d : Database) :
  user_auth_table d `prefix_of` user_auth_table (run get_password_hash ops d).
Proof.
  induction ops as [|o ops IH] in d |- *; [done|].
  rewrite run_cons. etrans; [|apply IH].
  destruct (run_op_credentials o d) as [->|[(? & ? & _ & _ & ->)|(? & _ & ->)]];
    [done|by apply prefix_app_r..].
Qed.

(** X3: a credential found after a sequence of requests was there at the
    start, or is the empty one [seed_db] gives the system user (secret
    [""], type 0), or was written by a [create_user] of the sequence, with
    type 1 and the hash of that request's secret. *)
Theorem stored_secrets_are_hashes (ops : list op) (d : Database)
    (a : user_model.UserAuth.t) :
  a ∈ user_auth_table (run get_password_hash ops d) →
  a ∈ user_auth_table d
  ∨ (∃ uuid4, Seed_db uuid4 ∈ ops ∧ a = user_model.UserAuth.mk "" 0 (Some uuid4))
  ∨ (∃ uuid4 ua,
       Create_user uuid4 ua ∈ ops
       ∧ user_schema.UserAuth.auth_type ua = 1%Z
       ∧ a = user_model.UserAuth.mk
               (get_password_hash (user_schema.UserAuth.secret ua)) 1 (Some uuid4)).
Proof.
  induction ops as [|o ops IH] in d |- *; intros Ha; [by left|].
  rewrite run_cons in Ha. apply IH in Ha as [Ha|[(i & Hi & ->)|(i & ua & Hua & Hty & ->)]].
  - destruct (run_op_credentials o d)
      as [Heq|[(i & ua & -> & Hty & Heq)|(i & -> & Heq)]];
      rewrite Heq in Ha.
    + by left.
    + apply elem_of_app in Ha as [Ha|Ha%list_elem_of_singleton]; [by left|].
      subst a. right. right. exists i, ua. split; [apply list_elem_of_here|done].
    + apply elem_of_app in Ha as [Ha|Ha%list_elem_of_singleton]; [by left|].
      subst a. right. left. exists i. split; [apply list_elem_of_here|done].
  - right. left. exists i. split; [by apply list_elem_of_further|done].
  - right. right. exists i, ua. split; [by apply list_elem_of_further|done].
Qed.
End accumulate.

Section sign_up.
Variable get_password_hash : string → string.

(** X4: after a [create_user] that went through (the username was free, the
    type is 1), [get_user] for that username returns the new user, with
    the drawn id, and its auth list ends with the credential just stored:
    the username, the hash of the secret, type 1. *)
Theorem sign_up_then_get_user (uuid4 : UUID) (ua : user_schema.UserAuth.t) (d : Database) :
  user_schema.UserAuth.username ua ∉ users.username <$> users_table d →
  user_schema.UserAuth.auth_type ua = 1%Z →
  let s' := (create_user get_password_hash uuid4 ua (SessionLocal d)).2 in
  ∃ v,
    get_user (user_schema.UserAuth.username ua) s' = (Ok (Some v), s')
    ∧ user_schema.User.username v = user_schema.UserAuth.username ua
    ∧ user_schema.User.id v = uuid4
    ∧ user_schema.User.auth v
      = (view_auth (user_schema.UserAuth.username ua) <$> auth_of d uuid4)
        ++ [user_schema.UserAuth.mk (user_schema.UserAuth.username ua)
              (get_password_hash (user_schema.UserAuth.secret ua)) 1].
Proof.
  intros Hfresh Hty s'. subst s'. rewrite create_user_new_session.
  destruct (first_row _ (users_table d)) as [p|] eqn:E.
  { destruct Hfresh. apply username_taken. by eexists. }
  rewrite decide_True by done. cbn [snd]. rewrite get_user_eq.
  cbn [engine SessionLocal]. unfold signed_up at 2. cbn [users_table].
  rewrite (first_row_snoc _ _ _ E) by done.
  eexists. split; [reflexivity|]. cbn. split; [done|]. split; [done|].
  rewrite owned_snoc by done. by rewrite fmap_app.
Qed.

Lemma signed_up_is_stored (uuid4 : UUID) (ua : user_schema.UserAuth.t) (d : Database) :
  user_schema.UserAuth.auth_type ua = 1%Z →
  user_schema.UserAuth.username ua
    ∈ users.username <$> users_table (run_op get_password_hash (Create_user uuid4 ua) d).
Proof.
  intros Hty. unfold run_op, exec. rewrite create_user_new_session.
  destruct (first_row _ (users_table d)) as [p|] eqn:E.
  - apply username_taken. by eexists.
  - rewrite decide_True by done. cbn. rewrite fmap_app.
    apply elem_of_app. right. apply list_elem_of_here.
Qed.

(** X5: once [create_user] has run for a username with type 1, then, whatever
    requests follow, a further [create_user] for that username (any secret,
    any type) returns [None] and changes nothing. *)
Theorem username_stays_taken (uuid4 uuid4' : UUID) (ua ua' : user_schema.UserAuth.t)
    (ops : list op) (d : Database) :
  user_schema.UserAuth.auth_type ua = 1%Z →
  user_schema.UserAuth.username ua' = user_schema.UserAuth.username ua →
  let d' := run get_password_hash (Create_user uuid4 ua :: ops) d in
  create_user get_password_hash uuid4' ua' (SessionLocal d') = (Ok None, SessionLocal d').
Proof.
  intros Hty Hname d'. rewrite create_user_new_session.
  assert (Hin : user_schema.UserAuth.username ua' ∈ users.username <$> users_table d').
  { rewrite Hname. subst d'. rewrite run_cons.
    destruct (run_usernames_prefix get_password_hash ops
                (run_op get_password_hash (Create_user uuid4 ua) d)) as [k ->].
    apply elem_of_app. left. by apply signed_up_is_stored. }
  apply username_taken in Hin as [p ->]. done.
Qed.
End sign_up.

(** ** Update, then look up *)

(** X6: after [update_user] found the row and wrote it (the view's id
    is that of no other row), [get_user] for the same username returns a
    view with exactly the columns of the view that was passed; its auth
    list is made of the credentials bound to the id now in the row, so
    with the id unchanged the auth and chats are those the user had
    before. *)
Theorem update_then_get_user (u : user_schema.User.t) (d : Database) (i : nat)
    (r : users.row) :
  first_row (λ r, users.username r = user_schema.User.username u) (users_table d)
  = Some (i, r) →
  user_schema.User.id u ∉ users.id <$> delete i (users_table d) →
  let s' := (update_user u (SessionLocal d)).2 in
  ∃ v,
    get_user (user_schema.User.username u) s' = (Ok (Some v), s')
    ∧ columns_of_view v = columns_of_view u
    ∧ user_schema.User.auth v
      = view_auth (user_schema.User.username u) <$> auth_of d (user_schema.User.id u)
    ∧ (user_schema.User.id u = users.id r →
       user_schema.User.auth v = user_schema.User.auth (view_of_row d r true)
       ∧ user_schema.User.chats v = user_schema.User.chats (view_of_row d r true)).
Proof.
  intros E Hfree s'. subst s'. rewrite update_user_new_session, E.
  rewrite decide_False by done. cbn [snd].
  rewrite get_user_eq. cbn [engine SessionLocal users_table].
  rewrite (first_row_insert_same _ _ _ _ (columns_of_view u) E) by done.
  eexists. split; [reflexivity|]. cbn. split; [done|]. split; [done|].
  intros Hid. apply first_row_Some in E as (_ & Hr & _). cbn in Hr.
  unfold auth_of. cbn. by rewrite Hid, Hr.
Qed.

Lemma delete_insert_same {A} (l : list A) (i : nat) (x : A) :
  delete i (<[i := x]> l) = delete i l.
Proof.
  induction l as [|y l IH] in i |- *; [done|].
  destruct i as [|i]; [done|]. cbn. by rewrite IH.
Qed.

(** X7: running [update_user] with the same view a second time leaves the
    database as the first run left it. *)
Theorem update_user_idempotent (u : user_schema.User.t) (d : Database) :
  exec (update_user u) (exec (update_user u) d) = exec (update_user u) d.
Proof.
  unfold exec. rewrite (update_user_new_session u d).
  destruct (first_row _ (users_table d)) as [[i r]|] eqn:E.
  - destruct (decide (user_schema.User.id u ∈ users.id <$> delete i (users_table d)))
      as [Htaken|Hfree]; cbn [snd engine SessionLocal].
    + rewrite update_user_new_session, E. by rewrite decide_True.
    + rewrite update_user_new_session. cbn [users_table].
      rewrite (first_row_insert_same _ _ _ _ (columns_of_view u) E) by done.
      rewrite delete_insert_same, decide_False by done.
      cbn. by rewrite list_insert_insert_eq.
  - cbn [snd engine SessionLocal]. rewrite update_user_new_session. by rewrite E.
Qed.

(** ** Seeding *)

(** X8: after [seed_db] a user named "system" exists; a second [seed_db]
    changes nothing; and [seed_db] changes nothing when a user named
    "system" is there already. *)
Theorem seed_db_idempotent (a b : UUID) (d : Database) :
  "system" ∈ users.username <$> users_table (exec (seed_db a) d)
  ∧ exec (seed_db b) (exec (seed_db a) d) = exec (seed_db a) d
  ∧ ("system" ∈ users.username <$> users_table d → exec (seed_db a) d = d).
Proof.
  assert (Hin : "system" ∈ users.username <$> users_table (exec (seed_db a) d)).
  { unfold exec. rewrite seed_db_new_session.
    destruct (first_row _ (users_table d)) as [p|] eqn:E.
    - apply username_taken. by eexists.
    - cbn. rewrite fmap_app. apply elem_of_app. right. apply list_elem_of_here. }
  split; [done|]. split.
  - apply username_taken in Hin as [p Hp].
    unfold exec at 1. by rewrite seed_db_new_session, Hp.
  - intros [p Hp]%username_taken. unfold exec. by rewrite seed_db_new_session, Hp.
Qed.

(** X9: when no user is named "system", [seed_db] stores one that [get_user]
    then returns: the drawn id, full name "Default User", empty email,
    active, dark theme, and a credential with the empty secret and type
    0. *)
Theorem seeded_account (a : UUID) (d : Database) :
  "system" ∉ users.username <$> users_table d →
  let s' := (seed_db a (SessionLocal d)).2 in
  ∃ v,
    get_user "system" s' = (Ok (Some v), s')
    ∧ user_schema.User.id v = a
    ∧ user_schema.User.full_name v = "Default User"
    ∧ user_schema.User.email v = ""
    ∧ user_schema.User.is_active v = true
    ∧ user_schema.User.theme_light v = false
    ∧ user_schema.User.auth v
      = (view_auth "system" <$> auth_of d a) ++ [user_schema.UserAuth.mk "system" "" 0].
Proof.
  intros Hfresh s'. subst s'. rewrite seed_db_new_session.
  destruct (first_row _ (users_table d)) as [p|] eqn:E.
  { destruct Hfresh. apply username_taken. by eexists. }
  cbn [snd]. rewrite get_user_eq. cbn [engine SessionLocal users_table].
  rewrite (first_row_snoc _ _ _ E) by done.
  eexists. split; [reflexivity|]. cbn. repeat (split; [done|]).
  rewrite owned_snoc by done. by rewrite fmap_app.
Qed.

(** ** Chats: create, then remove *)

Lemma filter_chat_id_other (cid : string) (l : list chats.row) :
  filter (λ c, chats.chat_id c = cid) l = [] →
  filter (λ c, chats.chat_id c ≠ cid) l = l.
Proof. apply (filter_not_all (λ c, chats.chat_id c = cid)). Qed.

Lemma filter_chat_id_gone (cid : string) (l : list chats.row) :
  filter (λ c, chats.chat_id c = cid) (filter (λ c, chats.chat_id c ≠ cid) l) = [].
Proof.
  induction l as [|c l IH]; [done|]. rewrite filter_cons.
  destruct (decide (chats.chat_id c ≠ cid)) as [Hc|Hc]; [|done].
  rewrite filter_cons. by rewrite decide_False.
Qed.

(** X10: [create_chat] does not look for the chat_id first: two calls with the
    same chat_id store two rows, and from then on [remove_chat] for that
    chat_id raises [MultipleResultsFound] and removes neither. *)
Theorem twin_chats_cannot_be_removed (cid owner1 owner2 owner3 : string) (d : Database) :
  let d' := exec (create_chat (user_schema.Chat.mk cid owner2))
              (exec (create_chat (user_schema.Chat.mk cid owner1)) d) in
  chats_table d'
  = chats_table d ++ [chats.mk cid owner1 None; chats.mk cid owner2 None]
  ∧ remove_chat (user_schema.Chat.mk cid owner3) (SessionLocal d')
    = (Raise MultipleResultsFound, SessionLocal d').
Proof.
  intros d'. subst d'. unfold exec. rewrite !create_chat_new_session.
  cbn [snd engine SessionLocal chats_table user_schema.Chat.chat_id user_schema.Chat.owner].
  split; [by rewrite <- app_assoc|].
  match goal with |- remove_chat ?c (SessionLocal ?d1) = _ =>
    pose proof (remove_chat_new_session c d1) as Hrun end.
  cbn [chats_table user_schema.Chat.chat_id] in Hrun.
  rewrite !filter_app, !filter_cons, !decide_True in Hrun by done.
  rewrite filter_nil in Hrun.
  destruct (filter _ (chats_table d)) as [|c [|c' m]]; exact Hrun.
Qed.

(** X11: when no stored chat has the chat_id, [create_chat] followed by
    [remove_chat] for that chat_id gives back the database as it was; the
    owner passed to [remove_chat] plays no part. *)
Theorem create_then_remove_chat (cid owner1 owner2 : string) (d : Database) :
  filter (λ c, chats.chat_id c = cid) (chats_table d) = [] →
  remove_chat (user_schema.Chat.mk cid owner2)
    (SessionLocal (exec (create_chat (user_schema.Chat.mk cid owner1)) d))
  = (Ok (), SessionLocal d).
Proof.
  intros Hnone. unfold exec. rewrite create_chat_new_session.
  cbn [snd engine SessionLocal user_schema.Chat.chat_id user_schema.Chat.owner].
  match goal with |- remove_chat ?c (SessionLocal ?d1) = _ =>
    pose proof (remove_chat_new_session c d1) as Hrun end.
  cbn [chats_table user_schema.Chat.chat_id] in Hrun.
  rewrite !filter_app, !filter_cons, decide_True, decide_False in Hrun
    by (cbn; tauto).
  rewrite !filter_nil, Hnone, filter_chat_id_other in Hrun by done.
  cbn [app] in Hrun. destruct Hrun as (i & _ & -> & ->).
  rewrite app_nil_r. by destruct d.
Qed.

(** X12: after a [remove_chat] that returned, the same [remove_chat] raises
    [NoResultFound] and changes nothing. *)
Theorem remove_chat_twice (chat : user_schema.Chat.t) (d : Database) (s' : Session) :
  remove_chat chat (SessionLocal d) = (Ok (), s') →
  remove_chat chat s' = (Raise NoResultFound, s').
Proof.
  intros Hok. pose proof (remove_chat_new_session chat d) as Hrun.
  destruct (filter _ (chats_table d)) as [|c [|c' m]] eqn:E;
    [congruence| |congruence].
  destruct Hrun as (i & _ & Hrun & Hd). rewrite Hrun in Hok.
  injection Hok as <-. rewrite Hd.
  match goal with |- remove_chat _ (SessionLocal ?d1) = _ =>
    pose proof (remove_chat_new_session chat d1) as Hagain end.
  cbn [chats_table] in Hagain.
  by rewrite filter_chat_id_gone in Hagain.
Qed.

(** ** The mappers, the other way round *)

(** X13: [user_view_to_db] raises in two cases and no other: given
    neither a user nor a credential (the assertion), and given a view that
    has an auth record or a chat (the constructor of the row refuses the
    dictionaries it is handed). Given a credential only, it builds a user
    with the drawn id, the credential's username and the defaults of the
    view, and one credential object bound to that id that carries the
    secret as it was passed: the mapper does not hash. *)
Theorem sign_up_mapping (uuid4 : UUID) (u : option user_schema.User.t)
    (ua : option user_schema.UserAuth.t) :
  ((∃ e, Mappers.user_view_to_db uuid4 u ua = Raise e)
   ↔ (u = None ∧ ua = None)
     ∨ (∃ v, u = Some v
             ∧ (user_schema.User.auth v ≠ [] ∨ user_schema.User.chats v ≠ [])))
  ∧ (∀ v, u = Some v →
       user_schema.User.auth v ≠ [] ∨ user_schema.User.chats v ≠ [] →
       Mappers.user_view_to_db uuid4 u ua = Raise AttributeError)
  ∧ (∀ x, u = None → ua = Some x →
       let a := user_model.UserAuth.mk (user_schema.UserAuth.secret x)
                  (user_schema.UserAuth.auth_type x) (Some uuid4) in
       Mappers.user_view_to_db uuid4 u ua
       = Ok (user_model.User.mk uuid4 (user_schema.UserAuth.username x) "" "" false
               user_schema.User.default_prompt_default true [a] [],
             Some a)).
Proof.
  split; [|split].
  - destruct u as [u|].
    + rewrite user_view_to_db_given.
      destruct (user_schema.User.auth u) as [|a l] eqn:Ha;
        [destruct (user_schema.User.chats u) as [|c k] eqn:Hc|].
      * split; [by intros [e He]|].
        intros [[? _]|(v & [= <-] & [Hv|Hv])]; [done|..]; congruence.
      * split; [|by eexists]. intros _. right. exists u. split; [done|].
        right. by rewrite Hc.
      * split; [|by eexists]. intros _. right. exists u. split; [done|].
        left. by rewrite Ha.
    + destruct ua as [x|]; cbn.
      * split; [by intros [e He]|]. intros [[_ ?]|(v & ? & _)]; done.
      * split; [|by eexists]. intros _. by left.
  - intros v -> Hv. rewrite user_view_to_db_given.
    destruct (user_schema.User.auth v) as [|a l];
      [destruct (user_schema.User.chats v) as [|c k]|]; [|done..].
    by destruct Hv.
  - intros x -> ->. reflexivity.
Qed.

(** X14: a view without auth records and chats, mapped by [user_view_to_db]
    and back by [user_db_to_view], comes back as it was; asked to include
    auth, the view comes back with the credential that was passed along,
    if any, under the user's username. *)
Theorem plain_view_round_trip (uuid4 : UUID) (v : user_schema.User.t)
    (ua : option user_schema.UserAuth.t) :
  user_schema.User.auth v = [] →
  user_schema.User.chats v = [] →
  ∃ user a,
    Mappers.user_view_to_db uuid4 (Some v) ua = Ok (user, a)
    ∧ Mappers.user_db_to_view (Some user) false = Ok (Some v)
    ∧ Mappers.user_db_to_view (Some user) true
      = Ok (Some (user_schema.User.set_auth
                    (match ua with
                     | Some x =>
                         [user_schema.UserAuth.mk (user_schema.User.username v)
                            (user_schema.UserAuth.secret x)
                            (user_schema.UserAuth.auth_type x)]
                     | None => []
                     end) v)).
Proof.
  intros Hauth Hchats. rewrite user_view_to_db_given, Hauth, Hchats. eexists _, _.
  split; [reflexivity|]. destruct v; cbn in *. subst.
  destruct ua; done.
Qed.

(** ** The public form, entry by entry *)

(** X15: [to_public_dict] has the keys of [dict()] in the same order and the
    same value under every key but ["auth"]; in each auth entry the
    username and the auth_type are kept and only the secret is replaced. *)
Theorem to_public_dict_keeps_the_rest (u : user_schema.User.t) :
  ∃ d,
    user_schema.User.to_public_dict u = Ok d
    ∧ d.*1 = (user_schema.User.dict u).*1
    ∧ (∀ k, k ≠ "auth" → dict_get k d = dict_get k (user_schema.User.dict u))
    ∧ dict_get "auth" d
      = Some (VList ((λ a, VDict [("username", VStr (user_schema.UserAuth.username a));
                                  ("secret", VStr "********");
                                  ("auth_type", VInt (user_schema.UserAuth.auth_type a))])
                       <$> user_schema.User.auth u)).
Proof.
  unfold user_schema.User.to_public_dict. cbv zeta.
  assert (Hget : dict_get "auth" (user_schema.User.dict u)
                 = Some (VList ((λ a, VDict (user_schema.UserAuth.dict a))
                                  <$> user_schema.User.auth u))) by reflexivity.
  rewrite Hget, rmap_mask_secret. cbn [rbind].
  set (masked := VList _).
  assert (Hset : dict_set "auth" masked (user_schema.User.dict u)
                 = [("username", VStr (user_schema.User.username u));
                    ("id", VUuid (user_schema.User.id u));
                    ("is_active", VBool (user_schema.User.is_active u));
                    ("email", VStr (user_schema.User.email u));
                    ("full_name", VStr (user_schema.User.full_name u));
                    ("theme_light", VBool (user_schema.User.theme_light u));
                    ("default_prompt", VStr (user_schema.User.default_prompt u));
                    ("auth", masked);
                    ("chats", VList (map (λ c, VDict (user_schema.Chat.dict c))
                                       (user_schema.User.chats u)))])
    by reflexivity.
  rewrite Hset. eexists. split; [reflexivity|]. split; [reflexivity|].
  split; [|reflexivity].
  intros k Hk. unfold user_schema.User.dict. cbn [dict_get].
  repeat (case_decide; [done|]). done.
Qed.

(** ** Pages of users *)

Lemma limit_offset_split {A} (skip l1 l2 : Z) (rows : list A) :
  (0 ≤ skip)%Z → (0 ≤ l1)%Z → (0 ≤ l2)%Z →
  limit (l1 + l2) (offset skip rows)
  = limit l1 (offset skip rows) ++ limit l2 (offset (skip + l1) rows).
Proof.
  intros Hskip H1 H2. unfold limit, offset.
  rewrite !bool_decide_eq_false_2 by lia.
  rewrite !Z2Nat.inj_add by lia.
  by rewrite <- drop_drop, take_take_drop.
Qed.

(** X16: for offsets and limits that are not negative and that a 64-bit
    integer holds (the second offset [skip + l1] and the joined limit
    [l1 + l2] included), the page at [skip] of length [l1] followed by the
    page at [skip + l1] of length [l2] is the page at [skip] of length
    [l1 + l2]. *)
Theorem get_users_pages_tile (skip l1 l2 : Z) (s : Session) :
  (0 ≤ skip)%Z → (0 ≤ l1)%Z → (0 ≤ l2)%Z →
  (skip + l1 < 2 ^ 63)%Z → (l1 + l2 < 2 ^ 63)%Z →
  ∃ p1 p2,
    get_users skip l1 s = (Ok p1, s)
    ∧ get_users (skip + l1) l2 s = (Ok p2, s)
    ∧ get_users skip (l1 + l2) s = (Ok (p1 ++ p2), s).
Proof.
  intros Hskip H1 H2 _ _. rewrite !get_users_eq. eexists _, _.
  split; [reflexivity|]. split; [reflexivity|].
  by rewrite limit_offset_split, !fmap_app.
Qed.

(** X17: for an offset and a limit that are not negative and that a 64-bit
    integer holds, [get_users] returns as many views as the limit, or as
    many users as are left after the offset if these are fewer; none when
    the offset is past the last user. *)
Theorem get_users_page_size (skip lim : Z) (s : Session) :
  (0 ≤ skip < 2 ^ 63)%Z → (0 ≤ lim < 2 ^ 63)%Z →
  ∃ p,
    get_users skip lim s = (Ok p, s)
    ∧ length p
      = Z.to_nat lim `min` (length (users_table (engine s)) - Z.to_nat skip)
    ∧ (length (users_table (engine s)) ≤ Z.to_nat skip → p = []).
Proof.
  intros Hskip Hlim. rewrite get_users_eq. eexists. split; [reflexivity|].
  unfold limit, offset. rewrite bool_decide_eq_false_2 by lia. split.
  - by rewrite !length_fmap, length_take, length_drop.
  - intros Hpast. rewrite drop_ge by done. by rewrite take_nil.
Qed.

(** ** Listing and lookup agree *)

Lemma unique_first_row (l : list users.row) (r : users.row) :
  NoDup (users.username <$> l) → r ∈ l →
  ∃ i, first_row (λ x, users.username x = users.username r) l = Some (i, r).
Proof.
  intros Hnd Hr.
  destruct (first_row (λ x, users.username x = users.username r) l) as [[i x]|] eqn:E.
  - exists i. apply first_row_Some in E as (Hi & Hx & _). do 2 f_equal.
    apply list_elem_of_lookup in Hr as [j Hj].
    assert (i = j) as ->; [|congruence].
    eapply NoDup_lookup; [exact Hnd|..]; rewrite list_lookup_fmap.
    + by rewrite Hi.
    + rewrite Hj. cbn. by rewrite Hx.
  - rewrite first_row_None in E. by destruct (E r Hr).
Qed.

(** X18: when usernames are unique, every view [get_users] lists is the one
    [get_user] returns for its username, with the auth records left out. *)
Theorem listed_users_are_found (skip lim : Z) (s : Session) (p : list (option user_schema.User.t))
    (v : user_schema.User.t) :
  usernames_unique (engine s) →
  get_users skip lim s = (Ok p, s) →
  Some v ∈ p →
  ∃ v',
    get_user (user_schema.User.username v) s = (Ok (Some v'), s)
    ∧ user_schema.User.set_auth [] v' = v.
Proof.
  intros Hunique Hlist Hv. rewrite get_users_eq in Hlist.
  injection Hlist as <-.
  apply list_elem_of_fmap in Hv as (v0 & [= <-] & Hv).
  apply list_elem_of_fmap in Hv as (r & -> & Hr).
  assert (Hin : r ∈ users_table (engine s)).
  { unfold limit, offset in Hr. case_bool_decide.
    - by apply subseteq_drop in Hr.
    - by apply subseteq_take, subseteq_drop in Hr. }
  destruct (unique_first_row _ r Hunique Hin) as [i Hi].
  rewrite get_user_eq. cbn [view_of_row user_schema.User.username]. rewrite Hi.
  eexists. split; [reflexivity|]. reflexivity.
Qed.

(** ** The model availability check *)

Lemma for_in_app {A B} (l1 l2 : list A) (body : A → generated B) :
  for_in (l1 ++ l2) body
  = match for_in l1 body with
    | (ys, Some e) => (ys, Some e)
    | (ys, None) => (ys ++ (for_in l2 body).1, (for_in l2 body).2)
    end.
Proof.
  induction l1 as [|x l1 IH]; cbn [for_in app].
  - by destruct (for_in l2 body).
  - destruct (body x) as [ys [e|]]; [done|]. rewrite IH.
    destruct (for_in l1 body) as [zs [e|]]; cbn; [done|].
    by rewrite app_assoc.
Qed.

Lemma for_in_all_finish {A B C} (g : C → A) (h : C → list B)
    (body : A → generated B) (l : list C) :
  (∀ x, x ∈ l → body (g x) = (h x, None)) →
  for_in (g <$> l) body = (l ≫= h, None).
Proof.
  induction l as [|x l IH]; intros Hbody; [done|].
  rewrite fmap_cons. cbn [for_in]. rewrite Hbody by apply list_elem_of_here.
  rewrite IH by (intros y Hy; apply Hbody; by apply list_elem_of_further).
  done.
Qed.

Lemma length_bind_sum {A B} (f : A → list B) (l : list A) :
  length (l ≫= f) = sum_list_with (λ x, length (f x)) l.
Proof.
  induction l as [|x l IH]; [done|].
  rewrite bind_cons, length_app, IH. done.
Qed.

Lemma sum_list_with_pointwise {A} (f g : A → nat) (l : list A) :
  (∀ x, f x = g x) → sum_list_with f l = sum_list_with g l.
Proof.
  intros Hfg. induction l as [|x l IH]; [done|].
  cbn [sum_list_with]. by rewrite Hfg, IH.
Qed.

Lemma flatten_file (m : models_json.model) (f : models_json.file) :
  yield_repo_filename (models_json.model_json m) (models_json.file_json f)
  = ([(JStr (models_json.repo m), JStr (models_json.filename f))], None).
Proof. reflexivity. Qed.

(** X19: for model data of the expected shape, whatever other keys the
    dictionaries hold, [flatten_model_data] ends without an exception and
    yields, family by family and model by model, one pair of the model's
    repo and the filename for every file; their number is the number of
    files. *)
Theorem flatten_model_data_well_formed (fs : list models_json.family) :
  flatten_model_data (models_json.to_json fs) = (models_json.pairs fs, None)
  ∧ checks (models_json.to_json fs) = Ok (models_json.pairs fs)
  ∧ length (models_json.pairs fs)
    = sum_list_with
        (λ f, sum_list_with (λ m, length (models_json.files m)) (models_json.models f))
        fs.
Proof.
  assert (Hflat : flatten_model_data (models_json.to_json fs)
                  = (models_json.pairs fs, None)).
  { unfold flatten_model_data, models_json.to_json, models_json.pairs.
    cbn [iterate for_each].
    apply for_in_all_finish. intros f _.
    cbn [models_json.family_json getitem json_get]. cbn [rbind iterate for_each].
    apply for_in_all_finish. intros m _.
    cbn [models_json.model_json getitem json_get]. cbn [rbind iterate for_each].
    apply for_in_all_finish. intros file _. reflexivity. }
  split; [exact Hflat|]. split; [unfold checks; by rewrite Hflat|].
  unfold models_json.pairs. rewrite length_bind_sum.
  apply sum_list_with_pointwise. intros f. rewrite length_bind_sum.
  apply sum_list_with_pointwise. intros m. rewrite length_bind_sum.
  rewrite (sum_list_with_pointwise _ (λ _, 1) _ (λ _, eq_refl)).
  induction (models_json.files m) as [|x xs IHx]; [done|].
  cbn [sum_list_with length]. by rewrite IHx.
Qed.

(** X20: on a list of families [flatten_model_data] works family by family: if
    it ends without an exception on the first families, it goes on with the
    others and what it yields is the two runs one after the other; if an
    exception ends it, the families after are never looked at and
    [checks] raises that exception. *)
Theorem flatten_model_data_app (fs1 fs2 : list json) :
  match flatten_model_data (JList fs1) with
  | (ys, Some e) =>
      flatten_model_data (JList (fs1 ++ fs2)) = (ys, Some e)
      ∧ checks (JList (fs1 ++ fs2)) = Raise e
  | (ys, None) =>
      flatten_model_data (JList (fs1 ++ fs2))
      = (ys ++ (flatten_model_data (JList fs2)).1, (flatten_model_data (JList fs2)).2)
  end.
Proof.
  unfold checks, flatten_model_data. cbn [iterate for_each]. rewrite for_in_app.
  destruct (for_in fs1 _) as [ys [e|]]; done.
Qed.

Lemma models_without_files (models : list json) :
  Forall (λ m, getitem m "files" = Ok (JList [])) models →
  for_in models (λ model,
    for_each (rbind (getitem model "files") iterate) (λ file,
      yield_repo_filename model file))
  = ([], None).
Proof.
  induction 1 as [|m ms Hm _ IH]; [done|].
  cbn [for_in]. rewrite Hm. cbn [rbind iterate for_each for_in]. by rewrite IH.
Qed.

(** X21: [flatten_model_data] reads a model's ["repo"] only when it
    yields a file of that model: models with an empty file list yield
    nothing and raise nothing, with or without a repo, while a first model
    with a file and no repo ends the generator with [KeyError "repo"]
    before anything is yielded. *)
Theorem flatten_model_data_reads_repo_late (family : list (string * json))
    (models : list json) :
  json_get "models" family = Some (JList models) →
  (Forall (λ m, getitem m "files" = Ok (JList [])) models →
   flatten_model_data (JList [JDict family]) = ([], None))
  ∧ (∀ m file files rest,
       models = m :: rest →
       getitem m "files" = Ok (JList (file :: files)) →
       getitem m "repo" = Raise (KeyError "repo") →
       flatten_model_data (JList [JDict family]) = ([], Some (KeyError "repo"))).
Proof.
  intros Hmodels. unfold flatten_model_data.
  cbn [iterate for_each for_in getitem]. rewrite Hmodels. cbn [rbind iterate for_each].
  split.
  - intros Hempty. by rewrite models_without_files.
  - intros m file files rest -> Hfiles Hrepo. cbn [for_in]. rewrite Hfiles.
    cbn [rbind iterate for_each for_in]. unfold yield_repo_filename. by rewrite Hrepo.
Qed.

(** X22: a first family without the key ["models"] ends
    [flatten_model_data] with [KeyError "models"] and nothing yielded,
    whatever families follow; [checks] raises it. *)
Theorem flatten_model_data_missing_key (family : list (string * json)) (rest : list json) :
  json_get "models" family = None →
  flatten_model_data (JList (JDict family :: rest)) = ([], Some (KeyError "models"))
  ∧ checks (JList (JDict family :: rest)) = Raise (KeyError "models").
Proof.
  intros Hnone. unfold checks, flatten_model_data.
  cbn [iterate for_each for_in getitem]. by rewrite Hnone.
Qed.

(** ** Signing up, continued *)

Section more_sign_up.
Variable get_password_hash : string → string.

(** X23: a new user has the empty email: after a [create_user] that went
    through, if no user stored before has the empty email,
    [get_user_by_email ""] returns the new user, and without auth
    records. *)
Theorem sign_up_then_get_user_by_email (uuid4 : UUID) (ua : user_schema.UserAuth.t)
    (d : Database) :
  user_schema.UserAuth.username ua ∉ users.username <$> users_table d →
  user_schema.UserAuth.auth_type ua = 1%Z →
  (∀ r, r ∈ users_table d → users.email r ≠ "") →
  let s' := (create_user get_password_hash uuid4 ua (SessionLocal d)).2 in
  ∃ v,
    get_user_by_email "" s' = (Ok (Some v), s')
    ∧ user_schema.User.username v = user_schema.UserAuth.username ua
    ∧ user_schema.User.id v = uuid4
    ∧ user_schema.User.auth v = [].
Proof.
  intros Hfresh Hty Hmail s'. subst s'. rewrite create_user_new_session.
  destruct (first_row _ (users_table d)) as [p|] eqn:E.
  { destruct Hfresh. apply username_taken. by eexists. }
  rewrite decide_True by done. cbn [snd]. rewrite get_user_by_email_eq.
  cbn [engine SessionLocal]. unfold signed_up. cbn [users_table].
  rewrite (first_row_snoc (λ r, users.email r = "")); [|by apply first_row_None|done].
  eexists. split; [reflexivity|]. done.
Qed.

(** X24: once [seed_db] has run, then, whatever requests follow,
    [create_user] for the username "system" returns [None] and changes
    nothing. *)
Theorem system_username_is_reserved (a uuid4 : UUID) (ua : user_schema.UserAuth.t)
    (ops : list op) (d : Database) :
  user_schema.UserAuth.username ua = "system" →
  let d' := run get_password_hash (Seed_db a :: ops) d in
  create_user get_password_hash uuid4 ua (SessionLocal d') = (Ok None, SessionLocal d').
Proof.
  intros Hname d'. rewrite create_user_new_session.
  assert (Hin : user_schema.UserAuth.username ua ∈ users.username <$> users_table d').
  { rewrite Hname. subst d'. rewrite run_cons.
    destruct (run_usernames_prefix get_password_hash ops
                (run_op get_password_hash (Seed_db a) d)) as [k ->].
    apply elem_of_app. left. unfold run_op, exec. rewrite seed_db_new_session.
    destruct (first_row _ (users_table d)) as [p|] eqn:E.
    - apply username_taken. by eexists.
    - cbn. rewrite fmap_app. apply elem_of_app. right. apply list_elem_of_here. }
  apply username_taken in Hin as [p ->]. done.
Qed.
End more_sign_up.

(** ** Instances on the sample data *)

Lemma sign_up_then_get_user_witness :
  ∃ v,
    get_user "alice" (create_user sample.hash 7 sample.alice (SessionLocal sample.empty)).2
    = (Ok (Some v), (create_user sample.hash 7 sample.alice (SessionLocal sample.empty)).2)
    ∧ user_schema.User.auth v = [user_schema.UserAuth.mk "alice" "$2b$hunter2" 1].
Proof.
  destruct (sign_up_then_get_user sample.hash 7 sample.alice sample.empty)
    as (v & Hv & _ & _ & Hauth).
  - cbn. apply not_elem_of_nil.
  - reflexivity.
  - exists v. split; [exact Hv|exact Hauth].
Defined.

Lemma sign_up_then_get_user_by_email_witness :
  ∃ v,
    get_user_by_email ""
      (create_user sample.hash 7 sample.alice (SessionLocal sample.empty)).2
    = (Ok (Some v), (create_user sample.hash 7 sample.alice (SessionLocal sample.empty)).2)
    ∧ user_schema.User.username v = "alice"
    ∧ user_schema.User.auth v = [].
Proof.
  destruct (sign_up_then_get_user_by_email sample.hash 7 sample.alice sample.empty)
    as (v & Hv & Hname & _ & Hauth).
  - cbn. apply not_elem_of_nil.
  - reflexivity.
  - intros r Hr. by apply not_elem_of_nil in Hr.
  - exists v. split; [exact Hv|]. split; [exact Hname|exact Hauth].
Defined.

Lemma username_stays_taken_witness :
  let d' := run sample.hash
              [Create_user 7 sample.alice; Create_chat sample.chat1;
               Update_user sample.alice_edited]
              sample.empty in
  create_user sample.hash 8 more.alice_again (SessionLocal d')
  = (Ok None, SessionLocal d').
Proof.
  exact (username_stays_taken sample.hash 7 8 sample.alice more.alice_again
           [Create_chat sample.chat1; Update_user sample.alice_edited] sample.empty
           eq_refl eq_refl).
Defined.

Lemma system_username_is_reserved_witness :
  let d' := run sample.hash [Seed_db 1; Create_user 7 sample.alice] sample.empty in
  create_user sample.hash 9 more.system_grab (SessionLocal d')
  = (Ok None, SessionLocal d').
Proof.
  exact (system_username_is_reserved sample.hash 1 9 more.system_grab
           [Create_user 7 sample.alice] sample.empty eq_refl).
Defined.

Lemma update_then_get_user_witness :
  ∃ v,
    get_user "alice" (update_user sample.alice_edited (SessionLocal sample.with_chat)).2
    = (Ok (Some v), (update_user sample.alice_edited (SessionLocal sample.with_chat)).2)
    ∧ user_schema.User.email v = "alice@example.org"
    ∧ user_schema.User.auth v = [user_schema.UserAuth.mk "alice" "$2b$hunter2" 1].
Proof.
  destruct (update_then_get_user sample.alice_edited sample.with_chat 0 sample.alice_row
              eq_refl (not_elem_of_nil _))
    as (v & Hv & Hcols & Hauth & _).
  exists v. split; [exact Hv|]. split; [|exact Hauth].
  exact (f_equal users.email Hcols).
Defined.

Lemma create_then_remove_chat_witness :
  remove_chat (user_schema.Chat.mk "c1" "mallory")
    (SessionLocal (exec (create_chat sample.chat1) sample.with_alice))
  = (Ok (), SessionLocal sample.with_alice).
Proof.
  exact (create_then_remove_chat "c1" "alice" "mallory" sample.with_alice eq_refl).
Defined.

Lemma remove_chat_twice_witness :
  remove_chat sample.chat1 (SessionLocal sample.with_chat)
  = (Ok (), SessionLocal sample.with_alice)
  ∧ remove_chat sample.chat1 (SessionLocal sample.with_alice)
    = (Raise NoResultFound, SessionLocal sample.with_alice).
Proof.
  split; [reflexivity|].
  exact (remove_chat_twice sample.chat1 sample.with_chat
           (SessionLocal sample.with_alice) eq_refl).
Defined.

Lemma seeded_account_witness :
  ∃ v,
    get_user "system" (seed_db 1 (SessionLocal sample.with_alice)).2
    = (Ok (Some v), (seed_db 1 (SessionLocal sample.with_alice)).2)
    ∧ user_schema.User.full_name v = "Default User"
    ∧ user_schema.User.auth v = [user_schema.UserAuth.mk "system" "" 0].
Proof.
  destruct (seeded_account 1 sample.with_alice)
    as (v & Hv & _ & Hfull & _ & _ & _ & Hauth).
  - cbn. intros Hin%list_elem_of_singleton. discriminate.
  - exists v. split; [exact Hv|]. split; [exact Hfull|exact Hauth].
Defined.

Lemma stored_secrets_are_hashes_witness :
  let a := user_model.UserAuth.mk "$2b$s3cret" 1 (Some 10%N) in
  a ∈ user_auth_table (run sample.hash [Seed_db 1; Create_user 10 more.carol]
                         sample.with_alice)
  ∧ (a ∈ user_auth_table sample.with_alice
     ∨ (∃ uuid4, Seed_db uuid4 ∈ [Seed_db 1; Create_user 10 more.carol]
                 ∧ a = user_model.UserAuth.mk "" 0 (Some uuid4))
     ∨ (∃ uuid4 ua,
          Create_user uuid4 ua ∈ [Seed_db 1; Create_user 10 more.carol]
          ∧ user_schema.UserAuth.auth_type ua = 1%Z
          ∧ a = user_model.UserAuth.mk (sample.hash (user_schema.UserAuth.secret ua))
                  1 (Some uuid4))).
Proof.
  assert (Hin : user_model.UserAuth.mk "$2b$s3cret" 1 (Some 10%N)
                ∈ user_auth_table (run sample.hash [Seed_db 1; Create_user 10 more.carol]
                                     sample.with_alice)).
  { vm_compute. do 2 apply list_elem_of_further. apply list_elem_of_here. }
  split; [exact Hin|].
  exact (stored_secrets_are_hashes sample.hash _ _ _ Hin).
Defined.

Lemma plain_view_round_trip_witness :
  ∃ user a,
    Mappers.user_view_to_db 3 (Some more.plain_view) None = Ok (user, a)
    ∧ Mappers.user_db_to_view (Some user) false = Ok (Some more.plain_view).
Proof.
  destruct (plain_view_round_trip 3 more.plain_view None eq_refl eq_refl)
    as (user & a & Hto & Hback & _).
  exists user, a. split; [exact Hto|exact Hback].
Defined.

Lemma get_users_pages_tile_witness :
  ∃ p1 p2,
    get_users 0 1 (SessionLocal sample.with_alice) = (Ok p1, SessionLocal sample.with_alice)
    ∧ get_users (0 + 1) 5 (SessionLocal sample.with_alice)
      = (Ok p2, SessionLocal sample.with_alice)
    ∧ get_users 0 (1 + 5) (SessionLocal sample.with_alice)
      = (Ok (p1 ++ p2), SessionLocal sample.with_alice).
Proof.
  apply (get_users_pages_tile 0 1 5 (SessionLocal sample.with_alice)); lia.
Defined.

Lemma get_users_page_size_witness :
  ∃ p,
    get_users 1 10 (SessionLocal sample.with_alice) = (Ok p, SessionLocal sample.with_alice)
    ∧ p = [].
Proof.
  destruct (get_users_page_size 1 10 (SessionLocal sample.with_alice))
    as (p & Hp & _ & Hempty); [lia..|].
  exists p. split; [exact Hp|]. apply Hempty. cbn. lia.
Defined.

Lemma listed_users_are_found_witness :
  ∃ v',
    get_user "alice" (SessionLocal sample.with_alice)
    = (Ok (Some v'), SessionLocal sample.with_alice)
    ∧ user_schema.User.auth (user_schema.User.set_auth [] v') = [].
Proof.
  destruct (listed_users_are_found 0 100 (SessionLocal sample.with_alice)
              [Some (view_of_row sample.with_alice sample.alice_row false)]
              (view_of_row sample.with_alice sample.alice_row false))
    as (v' & Hv' & Hsame).
  - unfold usernames_unique. cbn. apply NoDup_singleton.
  - reflexivity.
  - apply list_elem_of_here.
  - exists v'. split; [exact Hv'|]. reflexivity.
Defined.

Lemma flatten_model_data_reads_repo_late_witness :
  flatten_model_data
    (JList [JDict [("models", JList [more.model_without_files_or_repo])]])
  = ([], None)
  ∧ flatten_model_data (JList [JDict [("models", JList [more.model_without_repo])]])
    = ([], Some (KeyError "repo")).
Proof.
  split.
  - apply (flatten_model_data_reads_repo_late
             [("models", JList [more.model_without_files_or_repo])]
             [more.model_without_files_or_repo] eq_refl).
    by repeat constructor.
  - by eapply (flatten_model_data_reads_repo_late
                 [("models", JList [more.model_without_repo])]
                 [more.model_without_repo] eq_refl).
Defined.

Lemma flatten_model_data_missing_key_witness :
  checks (JList [JDict more.family_without_models;
                 models_json.family_json (models_json.mkFamily [] [])])
  = Raise (KeyError "models").
Proof.
  apply (flatten_model_data_missing_key more.family_without_models). reflexivity.
Defined.
